(** * Invoice dashboard: server actions of [app/lib/actions.ts]

    A shallow embedding of the server actions [createInvoice],
    [updateInvoice], [deleteInvoice], [deleteInvoiceAction] and
    [authenticate] of [app/lib/actions.ts], and of [validatePayloadSize]
    of [app/lib/monitoring.ts].

    [actions.ts] holds two revisions of [createInvoice]; the later one,
    with validation and error handling, is the one embedded here.

    - JavaScript numbers are IEEE-754 binary64 values, taken from the
      standard library's [spec_float] with [prec = 53] and [emax = 1024].
    - A JavaScript string is a [string], one character per code unit.
    - The handlers run in a small state-and-exception monad over a
      [World]: the external database, the list of outbound calls issued so
      far (SQL statements, cache invalidation, redirect, sign-in) and the
      console. *)

From Stdlib Require Import ZArith List String Ascii Bool Lia.
From Stdlib Require Import SpecFloat.
Import ListNotations.
Open Scope string_scope.

(** ** JavaScript numbers *)

Module JsNumber.

Definition number := spec_float.

Definition prec : Z := 53.
Definition emax : Z := 1024.

Definition NaN : number := S754_nan.
Definition pos_zero : number := S754_zero false.
Definition neg_zero : number := S754_zero true.
Definition pos_infinity : number := S754_infinity false.

(** The binary64 value nearest to an integer (ties to even). *)
Definition of_Z (z : Z) : number := binary_normalize prec emax z 0 false.

(** The binary64 value nearest to [n / d] (ties to even): the division
    core is run on the two integers themselves, then rounded once. *)
Definition of_ratio (neg : bool) (n d : positive) : number :=
  let '(mz, ez, lz) := SFdiv_core_binary prec emax (Zpos n) 0 (Zpos d) 0 in
  binary_round_aux prec emax neg mz ez lz.

(** [x * y], [x < y], [x <= y], [x > y], [x >= y] of the language. *)
Definition mul (x y : number) : number := SFmul prec emax x y.
Definition ltb (x y : number) : bool := SFltb x y.
Definition leb (x y : number) : bool := SFleb x y.
Definition gtb (x y : number) : bool := SFltb y x.
Definition geb (x y : number) : bool := SFleb y x.

(** [Number.isNaN]. *)
Definition isNaN (x : number) : bool :=
  match x with S754_nan => true | _ => false end.

(** [Number.isInteger]: a finite number with no fractional bit set. *)
Definition is_integer (x : number) : bool :=
  match x with
  | S754_zero _ => true
  | S754_finite _ m e =>
      match e with
      | Zneg p => Z.eqb (Z.land (Zpos m) (Z.ones (Zpos p))) 0
      | _ => true
      end
  | _ => false
  end.

(** [Math.trunc] on finite numbers: drop the fractional bits. *)
Definition trunc (x : number) : number :=
  match x with
  | S754_finite s m e =>
      match e with
      | Zneg p =>
          match Z.shiftr (Zpos m) (Zpos p) with
          | Zpos q => binary_normalize prec emax (if s then Zneg q else Zpos q) 0 s
          | _ => S754_zero s
          end
      | _ => x
      end
  | _ => x
  end.

End JsNumber.

(** ** Strings to numbers: the [Number(...)] coercion

    [z.coerce.number()] applies [Number] to the raw form value.  On a
    string that is the language's StringToNumber: surrounding white space
    is dropped, the empty string is [+0], a decimal literal (optional
    sign, digits, fraction, exponent, or [Infinity]) or an unsigned
    [0x]/[0o]/[0b] literal is its value rounded to the nearest binary64,
    and anything else is [NaN].  White space is the code units 9 to 13,
    32 and 160. *)

Module StringToNumber.
Import JsNumber.

Definition is_white_space (c : ascii) : bool :=
  let n := N_of_ascii c in
  ((9 <=? n) && (n <=? 13) || (n =? 32) || (n =? 160))%N.

Fixpoint drop_white_space (s : list ascii) : list ascii :=
  match s with
  | c :: r => if is_white_space c then drop_white_space r else s
  | [] => []
  end.

Definition trim (s : list ascii) : list ascii :=
  rev (drop_white_space (rev (drop_white_space s))).

(** The value of a digit in the given radix (2, 8, 10 or 16). *)
Definition digit_value (radix : N) (c : ascii) : option N :=
  let n := N_of_ascii c in
  let v :=
    if ((48 <=? n) && (n <=? 57))%N then Some (n - 48)%N
    else if ((97 <=? n) && (n <=? 102))%N then Some (n - 87)%N
    else if ((65 <=? n) && (n <=? 70))%N then Some (n - 55)%N
    else None in
  match v with
  | Some d => if (d <? radix)%N then Some d else None
  | None => None
  end.

(** Reads the leading digits of [s]: accumulated value, number of digits
    read, and what follows them. *)
Fixpoint take_digits (radix : N) (acc : N) (cnt : nat) (s : list ascii)
  : N * nat * list ascii :=
  match s with
  | c :: r =>
      match digit_value radix c with
      | Some d => take_digits radix (acc * radix + d)%N (S cnt) r
      | None => (acc, cnt, s)
      end
  | [] => (acc, cnt, [])
  end.

(** The exponent part: nothing, or [e]/[E], an optional sign and at
    least one digit, up to the end of the string. *)
Definition parse_exponent (s : list ascii) : option Z :=
  match s with
  | [] => Some 0%Z
  | c :: r =>
      if (Ascii.eqb c "e" || Ascii.eqb c "E")%bool then
        let '(neg, r') :=
          match r with
          | "+"%char :: t => (false, t)
          | "-"%char :: t => (true, t)
          | _ => (false, r)
          end in
        match take_digits 10 0 0 r' with
        | (e, S _, []) => Some (if neg then (- Z.of_N e)%Z else Z.of_N e)
        | _ => None
        end
      else None
  end.

(** The value [mant * 10 ^ exp10], rounded. *)
Definition of_decimal (neg : bool) (mant : N) (exp10 : Z) : number :=
  match mant with
  | N0 => S754_zero neg
  | Npos m =>
      match exp10 with
      | Zneg p => of_ratio neg m (10 ^ p)
      | Z0 => of_ratio neg m 1
      | Zpos p => of_ratio neg (m * 10 ^ p) 1
      end
  end.

Definition parse_unsigned_decimal (neg : bool) (s : list ascii) : number :=
  if String.eqb (string_of_list_ascii s) "Infinity" then S754_infinity neg
  else
    let '(a, na, r1) := take_digits 10 0 0 s in
    match r1 with
    | "."%char :: r2 =>
        let '(m, nb, r3) := take_digits 10 a 0 r2 in
        match (na + nb)%nat, parse_exponent r3 with
        | S _, Some e => of_decimal neg m (e - Z.of_nat nb)
        | _, _ => NaN
        end
    | _ =>
        match na, parse_exponent r1 with
        | S _, Some e => of_decimal neg a e
        | _, _ => NaN
        end
    end.

Definition parse_radix (radix : N) (s : list ascii) : number :=
  match take_digits radix 0 0 s with
  | (v, S _, []) => of_Z (Z.of_N v)
  | _ => NaN
  end.

Definition StringToNumber (str : string) : number :=
  match trim (list_ascii_of_string str) with
  | [] => pos_zero
  | "+"%char :: r => parse_unsigned_decimal false r
  | "-"%char :: r => parse_unsigned_decimal true r
  | "0"%char :: c :: r =>
      if (Ascii.eqb c "x" || Ascii.eqb c "X")%bool then parse_radix 16 r
      else if (Ascii.eqb c "o" || Ascii.eqb c "O")%bool then parse_radix 8 r
      else if (Ascii.eqb c "b" || Ascii.eqb c "B")%bool then parse_radix 2 r
      else parse_unsigned_decimal false ("0"%char :: c :: r)
  | s => parse_unsigned_decimal false s
  end.

End StringToNumber.

(** ** Form data *)

(** A form value is a string or a file; [formData.get] yields [null]
    ([None]) for a missing key and the first value of the key otherwise. *)
Inductive FormDataEntryValue :=
| EntryString (s : string)
| EntryFile (fileName : string).

Definition FormData := list (string * FormDataEntryValue).

Fixpoint get (name : string) (formData : FormData) : option FormDataEntryValue :=
  match formData with
  | [] => None
  | (k, v) :: rest => if String.eqb k name then Some v else get name rest
  end.

(** [FormData] has no [toString] of its own: the inherited
    [Object.prototype.toString] answers with the class tag, whatever the
    entries are. *)
Definition FormData_toString (formData : FormData) : string :=
  "[object FormData]".

(** [new Blob(parts).size]: the number of bytes of the parts. *)
Definition Blob_size (parts : list string) : Z :=
  fold_right (fun p n => (Z.of_nat (String.length p) + n)%Z) 0%Z parts.

(** [Number(v)] on what [formData.get] returns: [null] is [+0], a string
    goes through StringToNumber, a [File] object prints as
    ["[object File]"] and is therefore [NaN]. *)
Definition Number (v : option FormDataEntryValue) : JsNumber.number :=
  match v with
  | None => JsNumber.pos_zero
  | Some (EntryString s) => StringToNumber.StringToNumber s
  | Some (EntryFile _) => StringToNumber.StringToNumber "[object File]"
  end.

(** ** [monitoring.ts] *)

Definition default_maxSizeKB : JsNumber.number := JsNumber.of_Z 1.

Definition validatePayloadSize (formData : FormData) (maxSizeKB : JsNumber.number) : bool :=
  let dataSize := Blob_size [FormData_toString formData] in
  JsNumber.leb (JsNumber.of_Z dataSize) (JsNumber.mul maxSizeKB (JsNumber.of_Z 1024)).

(** The bytes a submission carries in its keys and string values: what any
    serialization of the form has to transmit at least. *)
Definition entry_bytes (kv : string * FormDataEntryValue) : Z :=
  match kv with
  | (k, EntryString s) => Z.of_nat (String.length k + String.length s)
  | (k, EntryFile f) => Z.of_nat (String.length k + String.length f)
  end.

Definition serialized_size (formData : FormData) : Z :=
  fold_right (fun kv n => (entry_bytes kv + n)%Z) 0%Z formData.

(** ** The validation schemas of [actions.ts] *)

Inductive InvoiceStatus := pending | paid.

Definition InvoiceStatus_to_string (s : InvoiceStatus) : string :=
  match s with pending => "pending" | paid => "paid" end.

(** [error.flatten().fieldErrors]: the messages of each field, in the
    order the checks report them; a key is present in the object exactly
    when its list here is not empty. *)
Record FieldErrors := {
  customerId_errors : list string;
  amount_errors : list string;
  status_errors : list string
}.

Record InvoiceFields := {
  customerId : string;
  amount : JsNumber.number;
  status : InvoiceStatus
}.

Inductive SafeParseReturn (A E : Type) :=
| Success (data : A)
| Failure (error : E).
Arguments Success {A E} data.
Arguments Failure {A E} error.

Definition is_success {A E} (r : SafeParseReturn A E) : bool :=
  match r with Success _ => true | Failure _ => false end.

Module FormSchema.
Import JsNumber.

Definition msg_select_customer := "Please select a customer.".
Definition msg_customer_required := "Customer ID is required.".
Definition msg_amount_gt := "Please enter an amount greater than $0.".
Definition msg_amount_lte := "Amount cannot exceed $1,000,000.".
Definition msg_select_status := "Please select an invoice status.".
Definition msg_amount_nan := "Expected number, received nan".
Definition msg_invalid_enum (received : string) :=
  "Invalid enum value. Expected 'pending' | 'paid', received '" ++ received ++ "'".

Definition amount_max : number := of_Z 1000000.

(** [z.string({invalid_type_error}).min(1, {message})] *)
Definition customerId_field (v : option FormDataEntryValue) : SafeParseReturn string (list string) :=
  match v with
  | Some (EntryString s) =>
      if (String.length s <? 1)%nat then Failure [msg_customer_required]
      else Success s
  | _ => Failure [msg_select_customer]
  end.

(** [z.coerce.number().gt(0, {message}).lte(1000000, {message})]: a
    [NaN] is a type error; otherwise both bounds are checked and each
    reports its own message. *)
Definition amount_field (v : option FormDataEntryValue) : SafeParseReturn number (list string) :=
  let n := Number v in
  if isNaN n then Failure [msg_amount_nan]
  else
    let tooSmall := leb n pos_zero in
    let tooBig := gtb n amount_max in
    match ((if tooSmall then [msg_amount_gt] else [])
           ++ (if tooBig then [msg_amount_lte] else []))%list with
    | [] => Success n
    | issues => Failure issues
    end.

(** [z.enum(['pending', 'paid'], {invalid_type_error})] *)
Definition status_field (v : option FormDataEntryValue) : SafeParseReturn InvoiceStatus (list string) :=
  match v with
  | Some (EntryString s) =>
      if String.eqb s "pending" then Success pending
      else if String.eqb s "paid" then Success paid
      else Failure [msg_invalid_enum s]
  | _ => Failure [msg_select_status]
  end.

Definition issues_of {A} (r : SafeParseReturn A (list string)) : list string :=
  match r with Success _ => [] | Failure l => l end.

(** [FormSchema.omit({ id: true, date: true }).safeParse({customerId,
    amount, status})], with the error already flattened. *)
Definition safeParse (formData : FormData) : SafeParseReturn InvoiceFields FieldErrors :=
  let c := customerId_field (get "customerId" formData) in
  let a := amount_field (get "amount" formData) in
  let s := status_field (get "status" formData) in
  match c, a, s with
  | Success cv, Success av, Success sv =>
      Success {| customerId := cv; amount := av; status := sv |}
  | _, _, _ =>
      Failure {| customerId_errors := issues_of c;
                 amount_errors := issues_of a;
                 status_errors := issues_of s |}
  end.

End FormSchema.

Definition CreateInvoice_safeParse := FormSchema.safeParse.
Definition UpdateInvoice_safeParse := FormSchema.safeParse.

(** [IdSchema] and [AuthSchema] rest on two pattern tests of the
    validation library ([.uuid()] and [.email()]); they belong to the
    platform below. *)

Record Credentials := {
  email : string;
  password : string
}.

(** ** Exceptions, SQL statements and outbound calls *)

Inductive Exn :=
| JsError (message : string)          (* [new Error(message)] *)
| AuthError (type : string)           (* the sign-in provider's error class *)
| NextRedirect (url : string)         (* what [redirect] raises *)
| ForeignError (description : string) (* any other thrown value *).

Inductive Statement :=
| InsertInvoice (customer_id : string) (amount : JsNumber.number)
                (status : InvoiceStatus) (date : string)
| UpdateInvoice (customer_id : string) (amount : JsNumber.number)
                (status : InvoiceStatus) (id : string)
| DeleteInvoice (id : string).

Inductive Call :=
| CallSql (q : Statement)
| CallRevalidatePath (path : string)
| CallRedirect (url : string)
| CallSignIn (provider : string) (formData : FormData).

Inductive SqlResult (DB : Type) :=
| SqlOk (db' : DB)
| SqlError (e : Exn).
Arguments SqlOk {DB} db'.
Arguments SqlError {DB} e.

(** What the actions import from outside the repository. *)
Class Platform := {
  (** the state of the hosted database *)
  DB : Type;
  (** the SQL client: the new state, or the exception it raises *)
  sql_exec : Statement -> DB -> SqlResult DB;
  (** the pattern behind [z.string().uuid()] *)
  uuid_test : string -> bool;
  (** the pattern behind [z.string().email()] *)
  email_test : string -> bool;
  (** [signIn(provider, formData)]: [None] when it resolves, the exception
      otherwise *)
  signIn_exec : string -> FormData -> option Exn;
  (** what [new Date().toISOString()] answers during the request *)
  Date_toISOString : string
}.

(** ** The action monad *)

Inductive Outcome (A : Type) :=
| Returned (a : A)
| Thrown (e : Exn).
Arguments Returned {A} a.
Arguments Thrown {A} e.

Section ActionMonad.
Context `{Platform}.

(** [calls] and [console] are in chronological order. *)
Record World := {
  database : DB;
  calls : list Call;
  console : list string
}.

Definition Action (A : Type) : Type := World -> Outcome A * World.

Definition ret {A} (a : A) : Action A := fun w => (Returned a, w).

Definition bind {A B} (m : Action A) (k : A -> Action B) : Action B :=
  fun w =>
    match m w with
    | (Returned a, w') => k a w'
    | (Thrown e, w') => (Thrown e, w')
    end.

Definition throw {A} (e : Exn) : Action A := fun w => (Thrown e, w).

Definition try_catch {A} (body : Action A) (handler : Exn -> Action A) : Action A :=
  fun w =>
    match body w with
    | (Returned a, w') => (Returned a, w')
    | (Thrown e, w') => handler e w'
    end.

Definition record_call (c : Call) : Action unit :=
  fun w => (Returned tt,
            {| database := database w;
               calls := (calls w ++ [c])%list;
               console := console w |}).

(** [console.log] and [console.error]: the fixed text of the line; the
    interpolated timings and the printed objects are left out. *)
Definition console_log (line : string) : Action unit :=
  fun w => (Returned tt,
            {| database := database w;
               calls := calls w;
               console := (console w ++ [line])%list |}).

Definition console_error (line : string) : Action unit := console_log line.

(** [await sql`...`]: the statement reaches the client, which either
    moves the database to its new state or raises. *)
Definition sql (q : Statement) : Action unit :=
  fun w =>
    let w1 := {| database := database w;
                 calls := (calls w ++ [CallSql q])%list;
                 console := console w |} in
    match sql_exec q (database w) with
    | SqlOk db' => (Returned tt,
                    {| database := db'; calls := calls w1; console := console w1 |})
    | SqlError e => (Thrown e, w1)
    end.

Definition revalidatePath (path : string) : Action unit :=
  record_call (CallRevalidatePath path).

(** [redirect] never returns: it raises the framework's redirect
    exception. *)
Definition redirect {A} (url : string) : Action A :=
  bind (record_call (CallRedirect url)) (fun _ => throw (NextRedirect url)).

Definition signIn (provider : string) (formData : FormData) : Action unit :=
  bind (record_call (CallSignIn provider formData))
       (fun _ => match signIn_exec provider formData with
                 | None => ret tt
                 | Some e => throw e
                 end).

End ActionMonad.

Declare Scope action_scope.
Delimit Scope action_scope with action.
Notation "x <- m ;; k" := (bind m (fun x => k))
  (at level 61, m at next level, right associativity) : action_scope.
Notation "m ;; k" := (bind m (fun _ => k))
  (at level 61, right associativity) : action_scope.

(** ** [actions.ts] *)

(** The [State] the form actions return: [errors] and [message] are both
    optional. *)
Record State := {
  errors : option FieldErrors;
  message : option string
}.

(** The [{ message }] object [deleteInvoice] returns. *)
Record DeleteResult := { delete_message : string }.

Definition invoices_path : string := "/dashboard/invoices".

(** [iso.split('T')[0]]: what precedes the first ['T'], the whole string
    when there is none. *)
Fixpoint split_T_0 (iso : string) : string :=
  match iso with
  | EmptyString => EmptyString
  | String c rest => if Ascii.eqb c "T" then EmptyString else String c (split_T_0 rest)
  end.

(** Whether the character occurs in the string. *)
Fixpoint contains (c : ascii) (s : string) : bool :=
  match s with
  | EmptyString => false
  | String d s' => Ascii.eqb c d || contains c s'
  end.

Section Actions.
Context `{Platform}.
Local Open Scope action_scope.

(** [IdSchema = z.string().uuid({ message: 'Invalid ID format.' })] *)
Definition IdSchema_safeParse (id : string) : SafeParseReturn string (list string) :=
  if uuid_test id then Success id else Failure ["Invalid ID format."].

Definition msg_expected_string (v : option FormDataEntryValue) : string :=
  match v with
  | None => "Expected string, received null"
  | _ => "Expected string, received object"
  end.

(** [z.string().email(..).max(255, ..)] *)
Definition email_field (v : option FormDataEntryValue) : SafeParseReturn string (list string) :=
  match v with
  | Some (EntryString s) =>
      match ((if email_test s then [] else ["Invalid email address."])
             ++ (if (255 <? String.length s)%nat then ["Email too long."] else []))%list with
      | [] => Success s
      | issues => Failure issues
      end
  | _ => Failure [msg_expected_string v]
  end.

(** [z.string().min(6, ..).max(255, ..)] *)
Definition password_field (v : option FormDataEntryValue) : SafeParseReturn string (list string) :=
  match v with
  | Some (EntryString s) =>
      match ((if (String.length s <? 6)%nat
              then ["Password must be at least 6 characters."] else [])
             ++ (if (255 <? String.length s)%nat then ["Password too long."] else []))%list with
      | [] => Success s
      | issues => Failure issues
      end
  | _ => Failure [msg_expected_string v]
  end.

Definition AuthSchema_safeParse (formData : FormData)
  : SafeParseReturn Credentials (list string * list string) :=
  let e := email_field (get "email" formData) in
  let p := password_field (get "password" formData) in
  match e, p with
  | Success ev, Success pv => Success {| email := ev; password := pv |}
  | _, _ => Failure (FormSchema.issues_of e, FormSchema.issues_of p)
  end.

Definition createInvoice (prevState : State) (formData : FormData) : Action State :=
  if negb (validatePayloadSize formData default_maxSizeKB) then
    console_log "[createInvoice] Payload too large" ;;
    ret {| errors := None; message := Some "Request payload too large." |}
  else
    let validatedFields := CreateInvoice_safeParse formData in
    console_log "validatedFields" ;;
    match validatedFields with
    | Failure fieldErrors =>
        ret {| errors := Some fieldErrors;
               message := Some "Missing Fields. Failed to Create Invoice." |}
    | Success data =>
        let amountInCents := JsNumber.mul (amount data) (JsNumber.of_Z 100) in
        let date := split_T_0 Date_toISOString in
        failed <- try_catch
                    (sql (InsertInvoice (customerId data) amountInCents (status data) date) ;;
                     console_log "[createInvoice] Success" ;;
                     ret None)
                    (fun error =>
                       console_error "[createInvoice] Database error:" ;;
                       ret (Some {| errors := None;
                                    message := Some "Database Error: Failed to Create Invoice." |})) ;;
        match failed with
        | Some result => ret result
        | None =>
            revalidatePath invoices_path ;;
            redirect invoices_path
        end
    end.

Definition updateInvoice (id : string) (prevState : State) (formData : FormData)
  : Action State :=
  match IdSchema_safeParse id with
  | Failure _ =>
      console_log "[updateInvoice] Invalid ID format" ;;
      ret {| errors := None; message := Some "Invalid ID format." |}
  | Success validatedId =>
      if negb (validatePayloadSize formData default_maxSizeKB) then
        console_log "[updateInvoice] Payload too large" ;;
        ret {| errors := None; message := Some "Request payload too large." |}
      else
        match UpdateInvoice_safeParse formData with
        | Failure fieldErrors =>
            ret {| errors := Some fieldErrors;
                   message := Some "Missing Fields. Failed to Update Invoice." |}
        | Success data =>
            let amountInCents := JsNumber.mul (amount data) (JsNumber.of_Z 100) in
            failed <- try_catch
                        (sql (UpdateInvoice (customerId data) amountInCents (status data)
                                            validatedId) ;;
                         console_log "[updateInvoice] Success" ;;
                         ret None)
                        (fun error =>
                           console_error "[updateInvoice] Database error:" ;;
                           ret (Some {| errors := None;
                                        message := Some "Database Error: Failed to Update Invoice." |})) ;;
            match failed with
            | Some result => ret result
            | None =>
                revalidatePath invoices_path ;;
                redirect invoices_path
            end
        end
  end.

Definition deleteInvoice (id : string) : Action DeleteResult :=
  match IdSchema_safeParse id with
  | Failure _ => ret {| delete_message := "Invalid ID format." |}
  | Success validatedId =>
      try_catch
        (sql (DeleteInvoice validatedId) ;;
         revalidatePath invoices_path ;;
         ret {| delete_message := "Deleted Invoice." |})
        (fun error =>
           console_error "[deleteInvoice] Database error:" ;;
           ret {| delete_message := "Database Error: Failed to Delete Invoice." |})
  end.

Definition deleteInvoiceAction (id : string) : Action unit :=
  match IdSchema_safeParse id with
  | Failure _ => throw (JsError "Invalid ID format.")
  | Success validatedId =>
      try_catch
        (sql (DeleteInvoice validatedId) ;;
         revalidatePath invoices_path)
        (fun error =>
           console_error "[deleteInvoiceAction] Database error:" ;;
           throw (JsError "Database Error: Failed to Delete Invoice."))
  end.

(** The result is a message, or [undefined] ([None]). *)
Definition authenticate (prevState : option string) (formData : FormData)
  : Action (option string) :=
  match AuthSchema_safeParse formData with
  | Failure _ =>
      console_log "[authenticate] Invalid input format" ;;
      ret (Some "Invalid input format.")
  | Success _ =>
      try_catch
        (signIn "credentials" formData ;;
         console_log "[authenticate] Success" ;;
         ret None)
        (fun error =>
           console_error "[authenticate] Auth error:" ;;
           match error with
           | AuthError type =>
               if String.eqb type "CredentialsSignin" then ret (Some "Invalid credentials.")
               else ret (Some "Something went wrong.")
           | _ => throw error
           end)
  end.

End Actions.

(** ** [withMonitoring] of [monitoring.ts]

    The wrapper runs the wrapped function on the same arguments; it logs
    a success line and hands the result on, or logs the error and raises
    it again.  The argument tuple is one value of type [T]. *)

Section Monitoring.
Context `{Platform}.
Local Open Scope action_scope.

Definition withMonitoring {T R : Type} (fn : T -> Action R) (functionName : string)
  : T -> Action R :=
  fun args =>
    try_catch
      (result <- fn args ;;
       console_log ("[" ++ functionName ++ "] Success") ;;
       ret result)
      (fun error =>
         console_error ("[" ++ functionName ++ "] Error:") ;;
         throw error).

End Monitoring.

(** ** The earlier revision of [createInvoice]

    The first revision in [actions.ts]: a schema without bounds or
    messages, [parse] instead of [safeParse] (it raises the validation
    library's error), and no handling of database errors. *)

Module Revision1.

(** [z.string()] *)
Definition customerId_field (v : option FormDataEntryValue) : option string :=
  match v with
  | Some (EntryString s) => Some s
  | _ => None
  end.

(** [z.coerce.number()]: anything but [NaN]. *)
Definition amount_field (v : option FormDataEntryValue) : option JsNumber.number :=
  let n := Number v in
  if JsNumber.isNaN n then None else Some n.

(** [z.enum(['pending', 'paid'])] *)
Definition status_field (v : option FormDataEntryValue) : option InvoiceStatus :=
  match v with
  | Some (EntryString s) =>
      if String.eqb s "pending" then Some pending
      else if String.eqb s "paid" then Some paid
      else None
  | _ => None
  end.

(** [CreateInvoice.parse({customerId, amount, status})]: the data, or
    [None] where [parse] raises. *)
Definition CreateInvoice_parse (formData : FormData) : option InvoiceFields :=
  match customerId_field (get "customerId" formData),
        amount_field (get "amount" formData),
        status_field (get "status" formData) with
  | Some c, Some a, Some s => Some {| customerId := c; amount := a; status := s |}
  | _, _, _ => None
  end.

Definition ZodError : Exn := ForeignError "ZodError".

Section Actions.
Context `{Platform}.
Local Open Scope action_scope.

Definition createInvoice (formData : FormData) : Action unit :=
  match CreateInvoice_parse formData with
  | None => throw ZodError
  | Some data =>
      let amountInCents := JsNumber.mul (amount data) (JsNumber.of_Z 100) in
      let date := split_T_0 Date_toISOString in
      sql (InsertInvoice (customerId data) amountInCents (status data) date) ;;
      revalidatePath "/dashboard/invoices" ;;
      redirect "/dashboard/invoices"
  end.

End Actions.

End Revision1.

(** ** Counting the statements among the calls *)

Definition is_sql (c : Call) : bool :=
  match c with CallSql _ => true | _ => false end.

Definition sql_count (l : list Call) : nat := List.length (filter is_sql l).

(** ** Whole numbers

    [shl k p] is [p * 2^k]: a mantissa with [k] more low zero bits. *)
Definition shl (k : nat) (p : positive) : positive := Nat.iter k xO p.

(** A text made of decimal digits only, and the whole number it
    writes. *)
Definition is_decimal_digit (c : ascii) : bool :=
  ((48 <=? N_of_ascii c) && (N_of_ascii c <=? 57))%N.

Fixpoint digits_value (acc : N) (s : list ascii) : option N :=
  match s with
  | [] => Some acc
  | c :: r =>
      if is_decimal_digit c
      then digits_value (acc * 10 + (N_of_ascii c - 48))%N r
      else None
  end.

Definition whole_number (s : string) : option N :=
  match list_ascii_of_string s with
  | [] => None
  | l => digits_value 0 l
  end.

(** ** Submissions

    The invoice form posts [customerId], [amount] and [status]; the login
    form posts [email] and [password]. *)

Definition invoice_form (c a s : string) : FormData :=
  [("customerId", EntryString c); ("amount", EntryString a); ("status", EntryString s)].

Definition login_form (e p : string) : FormData :=
  [("email", EntryString e); ("password", EntryString p)].

Definition initial_state : State := {| errors := None; message := None |}.

(** ** A reference platform

    An in-memory [invoices] table, the 8-4-4-4-12 hexadecimal pattern for
    identifiers, a plain address pattern and a fixed user: a concrete
    platform on which the actions run by computation. *)

Module Reference.

Record InvoiceRow := {
  row_id : string;
  row_customer_id : string;
  row_amount : JsNumber.number;
  row_status : InvoiceStatus;
  row_date : string
}.

Record Table := {
  rows : list InvoiceRow;
  next_id : nat
}.

(** The identifier the storage layer gives row number [n]: a fixed prefix
    and [n] written with the digits [0] and [1] on twelve places. *)
Fixpoint bits_of (width : nat) (n : N) : string :=
  match width with
  | O => EmptyString
  | S w => bits_of w (N.div2 n) ++ (if N.odd n then "1" else "0")
  end.

Definition generated_id (n : nat) : string :=
  "00000000-0000-4000-8000-" ++ bits_of 12 (N.of_nat n).

Definition run (q : Statement) (t : Table) : Table :=
  match q with
  | InsertInvoice c a s d =>
      {| rows := (rows t ++ [{| row_id := generated_id (next_id t);
                                row_customer_id := c; row_amount := a;
                                row_status := s; row_date := d |}])%list;
         next_id := S (next_id t) |}
  | UpdateInvoice c a s i =>
      {| rows := map (fun r => if String.eqb (row_id r) i
                               then {| row_id := row_id r; row_customer_id := c;
                                       row_amount := a; row_status := s;
                                       row_date := row_date r |}
                               else r) (rows t);
         next_id := next_id t |}
  | DeleteInvoice i =>
      {| rows := filter (fun r => negb (String.eqb (row_id r) i)) (rows t);
         next_id := next_id t |}
  end.

Definition is_hex (c : ascii) : bool :=
  match StringToNumber.digit_value 16 c with Some _ => true | None => false end.

(** [shape] lists, for each position, whether a hexadecimal digit ([true])
    or a hyphen ([false]) stands there. *)
Fixpoint matches_shape (shape : list bool) (s : string) : bool :=
  match shape, s with
  | [], EmptyString => true
  | true :: shape', String c s' => is_hex c && matches_shape shape' s'
  | false :: shape', String c s' => Ascii.eqb c "-" && matches_shape shape' s'
  | _, _ => false
  end.

Definition uuid_shape : list bool :=
  (repeat true 8 ++ [false] ++ repeat true 4 ++ [false] ++ repeat true 4
   ++ [false] ++ repeat true 4 ++ [false] ++ repeat true 12)%list.

Definition is_uuid (s : string) : bool := matches_shape uuid_shape s.

(** [local@domain]: a non-empty local part without ['@'], and a domain
    without ['@'] that has a dot. *)
Fixpoint is_email_from (seen_local : bool) (s : string) : bool :=
  match s with
  | EmptyString => false
  | String c s' =>
      if Ascii.eqb c "@" then seen_local && contains "." s' && negb (contains "@" s')
      else is_email_from true s'
  end.

Definition is_email (s : string) : bool := is_email_from false s.

(** The provider knows one user; any other credentials are refused with
    the provider's [CredentialsSignin] error. *)
Definition known_user (formData : FormData) : bool :=
  match get "email" formData, get "password" formData with
  | Some (EntryString e), Some (EntryString p) =>
      String.eqb e "user@nextmail.com" && String.eqb p "123456"
  | _, _ => false
  end.

Definition credentials_provider (provider : string) (formData : FormData) : option Exn :=
  if known_user formData then None else Some (AuthError "CredentialsSignin").

Definition now_iso : string := "2024-05-17T09:30:00.000Z".

(** The platform, with the database reachable or not and a given
    provider. *)
Definition platform (database_up : bool)
  (provider : string -> FormData -> option Exn) : Platform :=
  {| DB := Table;
     sql_exec := fun q t =>
       if database_up then SqlOk (run q t)
       else SqlError (ForeignError "connection refused");
     uuid_test := is_uuid;
     email_test := is_email;
     signIn_exec := provider;
     Date_toISOString := now_iso |}.

Definition online : Platform := platform true credentials_provider.
Definition offline : Platform := platform false credentials_provider.

Definition empty_table : Table := {| rows := []; next_id := 0 |}.

Definition start (P : Platform) (db : @DB P) : @World P :=
  {| database := db; calls := []; console := [] |}.

Definition a_uuid : string := "3958dc9e-712f-4377-85e9-fec4b6a6442a".

(** A submission of more than a kilobyte: its customer field alone has
    2048 characters. *)
Definition long_text : string :=
  string_of_list_ascii (repeat "a"%char 2048).

Definition oversized_form : FormData := invoice_form long_text "10" "pending".

End Reference.

(** * Properties *)

(** ** The coercion on sample inputs *)

Example StringToNumber_15_50 :
  StringToNumber.StringToNumber "15.50" = JsNumber.of_ratio false 31 2.
Proof. reflexivity. Qed.

Example StringToNumber_empty : StringToNumber.StringToNumber "" = JsNumber.pos_zero.
Proof. reflexivity. Qed.

Example StringToNumber_spaces : StringToNumber.StringToNumber " 42 " = JsNumber.of_Z 42.
Proof. reflexivity. Qed.

Example StringToNumber_exponent : StringToNumber.StringToNumber "1e3" = JsNumber.of_Z 1000.
Proof. reflexivity. Qed.

Example StringToNumber_hex : StringToNumber.StringToNumber "0x10" = JsNumber.of_Z 16.
Proof. reflexivity. Qed.

Example StringToNumber_negative :
  StringToNumber.StringToNumber "-.5" = JsNumber.of_ratio true 1 2.
Proof. reflexivity. Qed.

Example StringToNumber_words : StringToNumber.StringToNumber "abc" = JsNumber.NaN.
Proof. reflexivity. Qed.

Example StringToNumber_trailing : StringToNumber.StringToNumber "12px" = JsNumber.NaN.
Proof. reflexivity. Qed.

Example StringToNumber_Infinity :
  StringToNumber.StringToNumber "Infinity" = JsNumber.pos_infinity.
Proof. reflexivity. Qed.

Example Number_null : Number None = JsNumber.pos_zero.
Proof. reflexivity. Qed.

Example Number_file : Number (Some (EntryFile "invoice.pdf")) = JsNumber.NaN.
Proof. reflexivity. Qed.

Example cents_of_15_50 :
  JsNumber.mul (StringToNumber.StringToNumber "15.50") (JsNumber.of_Z 100) = JsNumber.of_Z 1550.
Proof. reflexivity. Qed.

(** [1.005 * 100] is [100.49999999999999], below 100.5. *)
Example cents_of_1_005 :
  JsNumber.mul (StringToNumber.StringToNumber "1.005") (JsNumber.of_Z 100)
    = S754_finite false 7072058789855231 (-46)
  /\ JsNumber.ltb (S754_finite false 7072058789855231 (-46)) (JsNumber.of_ratio false 201 2) = true.
Proof. split; reflexivity. Qed.

Example get_first_value :
  get "amount" [("amount", EntryString "1"); ("amount", EntryString "2")]
    = Some (EntryString "1").
Proof. reflexivity. Qed.

Example split_T_0_instant : split_T_0 "2024-05-17T09:30:00.000Z" = "2024-05-17".
Proof. reflexivity. Qed.

Example is_uuid_accepts : Reference.is_uuid Reference.a_uuid = true.
Proof. reflexivity. Qed.

Example is_uuid_refuses_injection :
  Reference.is_uuid "1; DROP TABLE invoices" = false.
Proof. reflexivity. Qed.

(** ** Comparisons of binary64 numbers *)

Lemma SFcompare_antisym (x y : spec_float) :
  SFcompare y x = option_map CompOpp (SFcompare x y).
Proof.
  destruct x as [sx|sx| |sx mx ex], y as [sy|sy| |sy my ey]; simpl;
    try destruct sx; try destruct sy; try reflexivity;
    rewrite (Z.compare_antisym ey ex);
    destruct (ey ?= ex)%Z; simpl; try reflexivity;
    rewrite !Pos.compare_cont_spec; simpl;
    rewrite (Pos.compare_antisym mx my);
    destruct (mx ?= my)%positive; reflexivity.
Qed.

Lemma SFcompare_defined (x y : spec_float) :
  JsNumber.isNaN x = false -> JsNumber.isNaN y = false ->
  exists c, SFcompare x y = Some c.
Proof.
  destruct x, y; simpl; intros; try discriminate; eauto.
Qed.

Lemma leb_negb_gtb (x y : JsNumber.number) :
  JsNumber.isNaN x = false -> JsNumber.isNaN y = false ->
  JsNumber.leb x y = negb (JsNumber.gtb x y).
Proof.
  intros Hx Hy. unfold JsNumber.leb, JsNumber.gtb, SFleb, SFltb.
  rewrite (SFcompare_antisym x y).
  destruct (SFcompare_defined x y Hx Hy) as [c ->].
  destruct c; reflexivity.
Qed.

Lemma ltb_not_NaN_r (x y : JsNumber.number) :
  JsNumber.ltb x y = true -> JsNumber.isNaN y = false.
Proof.
  unfold JsNumber.ltb, SFltb. destruct x, y; simpl; congruence.
Qed.

Lemma leb_not_NaN_l (x y : JsNumber.number) :
  JsNumber.leb x y = true -> JsNumber.isNaN x = false.
Proof.
  unfold JsNumber.leb, SFleb. destruct x, y; simpl; congruence.
Qed.

(** [0 < n] is: [n] is a number and [n <= 0] fails. *)
Lemma positive_iff (n : JsNumber.number) :
  JsNumber.ltb JsNumber.pos_zero n = true <->
  JsNumber.isNaN n = false /\ JsNumber.leb n JsNumber.pos_zero = false.
Proof.
  destruct n as [s|s| |s m e]; try destruct s; cbv; intuition congruence.
Qed.

(** A number at most [0] is not above the upper bound, and a number above
    the upper bound is not at most [0]. *)
Lemma bounds_exclusive (n : JsNumber.number) :
  JsNumber.leb n JsNumber.pos_zero = true ->
  JsNumber.gtb n FormSchema.amount_max = false.
Proof.
  destruct n as [s|s| |s m e]; try destruct s; cbv; intros; congruence.
Qed.

(** ** The invoice field validator *)

Lemma customerId_field_success (v : option FormDataEntryValue) :
  is_success (FormSchema.customerId_field v) = true <->
  exists s, v = Some (EntryString s) /\ s <> "".
Proof.
  split.
  - destruct v as [[s|f]|]; simpl; try discriminate.
    destruct s; simpl; try discriminate.
    intros _. eexists; split; [reflexivity | discriminate].
  - intros [s [-> Hs]]. destruct s; [contradiction | reflexivity].
Qed.

Lemma amount_field_cases (v : option FormDataEntryValue) :
  FormSchema.amount_field v =
    if JsNumber.isNaN (Number v) then Failure [FormSchema.msg_amount_nan]
    else if JsNumber.leb (Number v) JsNumber.pos_zero then Failure [FormSchema.msg_amount_gt]
    else if JsNumber.gtb (Number v) FormSchema.amount_max then Failure [FormSchema.msg_amount_lte]
    else Success (Number v).
Proof.
  unfold FormSchema.amount_field.
  destruct (JsNumber.isNaN (Number v)); [reflexivity|].
  destruct (JsNumber.leb (Number v) JsNumber.pos_zero) eqn:Hle.
  - rewrite (bounds_exclusive _ Hle). reflexivity.
  - destruct (JsNumber.gtb (Number v) FormSchema.amount_max); reflexivity.
Qed.

Lemma amount_field_success (v : option FormDataEntryValue) :
  is_success (FormSchema.amount_field v) = true <->
  JsNumber.ltb JsNumber.pos_zero (Number v) = true /\
  JsNumber.leb (Number v) FormSchema.amount_max = true.
Proof.
  rewrite amount_field_cases, positive_iff.
  destruct (JsNumber.isNaN (Number v)) eqn:Hnan; simpl.
  - intuition congruence.
  - rewrite (leb_negb_gtb _ FormSchema.amount_max Hnan eq_refl).
    destruct (JsNumber.leb (Number v) JsNumber.pos_zero); simpl; [intuition congruence|].
    destruct (JsNumber.gtb (Number v) FormSchema.amount_max); simpl; intuition congruence.
Qed.

Lemma status_field_success (v : option FormDataEntryValue) :
  is_success (FormSchema.status_field v) = true <->
  v = Some (EntryString "pending") \/ v = Some (EntryString "paid").
Proof.
  split.
  - destruct v as [[s|f]|]; simpl; try discriminate.
    destruct (String.eqb s "pending") eqn:E1.
    + apply String.eqb_eq in E1. subst. auto.
    + destruct (String.eqb s "paid") eqn:E2; simpl; try discriminate.
      apply String.eqb_eq in E2. subst. auto.
  - intros [-> | ->]; reflexivity.
Qed.

Lemma safeParse_success (formData : FormData) :
  is_success (FormSchema.safeParse formData) =
    is_success (FormSchema.customerId_field (get "customerId" formData))
    && is_success (FormSchema.amount_field (get "amount" formData))
    && is_success (FormSchema.status_field (get "status" formData)).
Proof.
  unfold FormSchema.safeParse.
  destruct (FormSchema.customerId_field _), (FormSchema.amount_field _),
    (FormSchema.status_field _); reflexivity.
Qed.

Lemma safeParse_amount_errors (formData : FormData) (issues : list string) :
  FormSchema.amount_field (get "amount" formData) = Failure issues ->
  exists fieldErrors,
    FormSchema.safeParse formData = Failure fieldErrors /\
    amount_errors fieldErrors = issues.
Proof.
  intros Ha. unfold FormSchema.safeParse. rewrite Ha.
  destruct (FormSchema.customerId_field _), (FormSchema.status_field _);
    eexists; split; reflexivity.
Qed.

(** C5. The invoice field validator accepts a submission exactly when
    [customerId] is a non-empty string, [amount] coerces to a number
    strictly above 0 and at most 1,000,000, and [status] is ['pending'] or
    ['paid'].  An amount at most 0 fails with the message asking for an
    amount greater than $0 on the amount field, and an amount above
    1,000,000 fails with the message about the $1,000,000 limit on the
    amount field. *)
Theorem FormSchema_accepts_iff (formData : FormData) :
  let n := Number (get "amount" formData) in
  (is_success (FormSchema.safeParse formData) = true <->
     (exists s, get "customerId" formData = Some (EntryString s) /\ s <> "") /\
     (JsNumber.ltb JsNumber.pos_zero n = true /\
      JsNumber.leb n (JsNumber.of_Z 1000000) = true) /\
     (get "status" formData = Some (EntryString "pending") \/
      get "status" formData = Some (EntryString "paid")))
  /\ (JsNumber.leb n JsNumber.pos_zero = true ->
      exists fieldErrors,
        FormSchema.safeParse formData = Failure fieldErrors /\
        amount_errors fieldErrors = ["Please enter an amount greater than $0."])
  /\ (JsNumber.gtb n (JsNumber.of_Z 1000000) = true ->
      exists fieldErrors,
        FormSchema.safeParse formData = Failure fieldErrors /\
        amount_errors fieldErrors = ["Amount cannot exceed $1,000,000."]).
Proof.
  intros n. split; [|split].
  - rewrite safeParse_success, !Bool.andb_true_iff.
    rewrite customerId_field_success, amount_field_success, status_field_success.
    fold n. change FormSchema.amount_max with (JsNumber.of_Z 1000000). tauto.
  - intros Hle. apply safeParse_amount_errors.
    rewrite amount_field_cases. fold n.
    rewrite (leb_not_NaN_l _ _ Hle), Hle. reflexivity.
  - intros Hgt. apply safeParse_amount_errors.
    rewrite amount_field_cases. fold n.
    change (JsNumber.of_Z 1000000) with FormSchema.amount_max in Hgt.
    rewrite (ltb_not_NaN_r _ _ Hgt), Hgt.
    destruct (JsNumber.leb n JsNumber.pos_zero) eqn:Hle; [|reflexivity].
    rewrite (bounds_exclusive _ Hle) in Hgt. discriminate.
Qed.

(** ** The payload-size guard *)

(** With the default limit the guard lets every submission through: the
    size it measures is that of the class tag, 17 bytes. *)
Lemma validatePayloadSize_default (formData : FormData) :
  validatePayloadSize formData default_maxSizeKB = true.
Proof. reflexivity. Qed.

(** ** The actions, case by case *)

Section Properties.
Context `{Platform}.

Ltac step := cbn [negb database calls console].

Ltac run_action :=
  unfold createInvoice, updateInvoice, deleteInvoice, deleteInvoiceAction,
    authenticate, CreateInvoice_safeParse, UpdateInvoice_safeParse,
    IdSchema_safeParse, redirect, revalidatePath, signIn, record_call,
    console_error, console_log, sql, try_catch, bind, ret, throw;
  rewrite ?validatePayloadSize_default; step.

Lemma createInvoice_rejected prevState formData w fieldErrors :
  FormSchema.safeParse formData = Failure fieldErrors ->
  createInvoice prevState formData w =
    (Returned {| errors := Some fieldErrors;
                 message := Some "Missing Fields. Failed to Create Invoice." |},
     {| database := database w; calls := calls w;
        console := (console w ++ ["validatedFields"])%list |}).
Proof. intros Hv. run_action. rewrite Hv. reflexivity. Qed.

Lemma createInvoice_inserted prevState formData w data db' :
  FormSchema.safeParse formData = Success data ->
  sql_exec (InsertInvoice (customerId data)
              (JsNumber.mul (amount data) (JsNumber.of_Z 100))
              (status data) (split_T_0 Date_toISOString)) (database w) = SqlOk db' ->
  createInvoice prevState formData w =
    (Thrown (NextRedirect invoices_path),
     {| database := db';
        calls := (calls w ++
                  [CallSql (InsertInvoice (customerId data)
                              (JsNumber.mul (amount data) (JsNumber.of_Z 100))
                              (status data) (split_T_0 Date_toISOString));
                   CallRevalidatePath invoices_path;
                   CallRedirect invoices_path])%list;
        console := (console w ++ ["validatedFields"; "[createInvoice] Success"])%list |}).
Proof.
  intros Hv Hq. run_action. rewrite Hv. step. rewrite Hq. step.
  rewrite <- !app_assoc. reflexivity.
Qed.

Lemma createInvoice_database_error prevState formData w data e :
  FormSchema.safeParse formData = Success data ->
  sql_exec (InsertInvoice (customerId data)
              (JsNumber.mul (amount data) (JsNumber.of_Z 100))
              (status data) (split_T_0 Date_toISOString)) (database w) = SqlError e ->
  createInvoice prevState formData w =
    (Returned {| errors := None;
                 message := Some "Database Error: Failed to Create Invoice." |},
     {| database := database w;
        calls := (calls w ++
                  [CallSql (InsertInvoice (customerId data)
                              (JsNumber.mul (amount data) (JsNumber.of_Z 100))
                              (status data) (split_T_0 Date_toISOString))])%list;
        console := (console w ++ ["validatedFields"; "[createInvoice] Database error:"])%list |}).
Proof.
  intros Hv Hq. run_action. rewrite Hv. step. rewrite Hq. step.
  rewrite <- !app_assoc. reflexivity.
Qed.

Lemma updateInvoice_invalid_id id prevState formData w :
  uuid_test id = false ->
  updateInvoice id prevState formData w =
    (Returned {| errors := None; message := Some "Invalid ID format." |},
     {| database := database w; calls := calls w;
        console := (console w ++ ["[updateInvoice] Invalid ID format"])%list |}).
Proof. intros Hid. run_action. rewrite Hid. reflexivity. Qed.

Lemma updateInvoice_rejected id prevState formData w fieldErrors :
  uuid_test id = true ->
  FormSchema.safeParse formData = Failure fieldErrors ->
  updateInvoice id prevState formData w =
    (Returned {| errors := Some fieldErrors;
                 message := Some "Missing Fields. Failed to Update Invoice." |}, w).
Proof. intros Hid Hv. run_action. rewrite Hid, Hv. reflexivity. Qed.

Lemma updateInvoice_updated id prevState formData w data db' :
  uuid_test id = true ->
  FormSchema.safeParse formData = Success data ->
  sql_exec (UpdateInvoice (customerId data)
              (JsNumber.mul (amount data) (JsNumber.of_Z 100))
              (status data) id) (database w) = SqlOk db' ->
  updateInvoice id prevState formData w =
    (Thrown (NextRedirect invoices_path),
     {| database := db';
        calls := (calls w ++
                  [CallSql (UpdateInvoice (customerId data)
                              (JsNumber.mul (amount data) (JsNumber.of_Z 100))
                              (status data) id);
                   CallRevalidatePath invoices_path;
                   CallRedirect invoices_path])%list;
        console := (console w ++ ["[updateInvoice] Success"])%list |}).
Proof.
  intros Hid Hv Hq. run_action. rewrite Hid, Hv. step. rewrite Hq. step.
  rewrite <- !app_assoc. reflexivity.
Qed.

Lemma updateInvoice_database_error id prevState formData w data e :
  uuid_test id = true ->
  FormSchema.safeParse formData = Success data ->
  sql_exec (UpdateInvoice (customerId data)
              (JsNumber.mul (amount data) (JsNumber.of_Z 100))
              (status data) id) (database w) = SqlError e ->
  updateInvoice id prevState formData w =
    (Returned {| errors := None;
                 message := Some "Database Error: Failed to Update Invoice." |},
     {| database := database w;
        calls := (calls w ++
                  [CallSql (UpdateInvoice (customerId data)
                              (JsNumber.mul (amount data) (JsNumber.of_Z 100))
                              (status data) id)])%list;
        console := (console w ++ ["[updateInvoice] Database error:"])%list |}).
Proof.
  intros Hid Hv Hq. run_action. rewrite Hid, Hv. step. rewrite Hq. reflexivity.
Qed.

Lemma deleteInvoice_cases id w :
  deleteInvoice id w =
    if uuid_test id then
      match sql_exec (DeleteInvoice id) (database w) with
      | SqlOk db' =>
          (Returned {| delete_message := "Deleted Invoice." |},
           {| database := db';
              calls := (calls w ++ [CallSql (DeleteInvoice id);
                                    CallRevalidatePath invoices_path])%list;
              console := console w |})
      | SqlError e =>
          (Returned {| delete_message := "Database Error: Failed to Delete Invoice." |},
           {| database := database w;
              calls := (calls w ++ [CallSql (DeleteInvoice id)])%list;
              console := (console w ++ ["[deleteInvoice] Database error:"])%list |})
      end
    else (Returned {| delete_message := "Invalid ID format." |}, w).
Proof.
  run_action. destruct (uuid_test id); [|reflexivity].
  destruct (sql_exec (DeleteInvoice id) (database w)); step;
    rewrite <- ?app_assoc; reflexivity.
Qed.

Lemma deleteInvoiceAction_cases id w :
  deleteInvoiceAction id w =
    if uuid_test id then
      match sql_exec (DeleteInvoice id) (database w) with
      | SqlOk db' =>
          (Returned tt,
           {| database := db';
              calls := (calls w ++ [CallSql (DeleteInvoice id);
                                    CallRevalidatePath invoices_path])%list;
              console := console w |})
      | SqlError e =>
          (Thrown (JsError "Database Error: Failed to Delete Invoice."),
           {| database := database w;
              calls := (calls w ++ [CallSql (DeleteInvoice id)])%list;
              console := (console w ++ ["[deleteInvoiceAction] Database error:"])%list |})
      end
    else (Thrown (JsError "Invalid ID format."), w).
Proof.
  run_action. destruct (uuid_test id); [|reflexivity].
  destruct (sql_exec (DeleteInvoice id) (database w)); step;
    rewrite <- ?app_assoc; reflexivity.
Qed.

Lemma authenticate_cases prevState formData w :
  authenticate prevState formData w =
    if is_success (AuthSchema_safeParse formData) then
      let w1 := {| database := database w;
                   calls := (calls w ++ [CallSignIn "credentials" formData])%list;
                   console := console w |} in
      match signIn_exec "credentials" formData with
      | None =>
          (Returned None,
           {| database := database w; calls := calls w1;
              console := (console w ++ ["[authenticate] Success"])%list |})
      | Some e =>
          let w2 := {| database := database w; calls := calls w1;
                       console := (console w ++ ["[authenticate] Auth error:"])%list |} in
          match e with
          | AuthError type =>
              (Returned (Some (if String.eqb type "CredentialsSignin"
                               then "Invalid credentials."
                               else "Something went wrong.")), w2)
          | _ => (Thrown e, w2)
          end
      end
    else
      (Returned (Some "Invalid input format."),
       {| database := database w; calls := calls w;
          console := (console w ++ ["[authenticate] Invalid input format"])%list |}).
Proof.
  run_action. destruct (AuthSchema_safeParse formData); step; [|reflexivity].
  destruct (signIn_exec "credentials" formData) as [e|]; step; [|reflexivity].
  destruct e; step; try reflexivity.
  destruct (String.eqb type "CredentialsSignin"); reflexivity.
Qed.

Lemma safeParse_amount formData data :
  FormSchema.safeParse formData = Success data ->
  amount data = Number (get "amount" formData).
Proof.
  unfold FormSchema.safeParse. rewrite amount_field_cases.
  destruct (FormSchema.customerId_field _); try discriminate.
  destruct (JsNumber.isNaN _); try discriminate.
  destruct (JsNumber.leb _ _); try discriminate.
  destruct (JsNumber.gtb _ _); try discriminate.
  destruct (FormSchema.status_field _); try discriminate.
  intros [= <-]. reflexivity.
Qed.

(** Every failure of the validator names at least one field. *)
Lemma safeParse_failure_names_a_field formData fieldErrors :
  FormSchema.safeParse formData = Failure fieldErrors ->
  customerId_errors fieldErrors <> [] \/ amount_errors fieldErrors <> []
  \/ status_errors fieldErrors <> [].
Proof.
  unfold FormSchema.safeParse. rewrite amount_field_cases.
  destruct (FormSchema.customerId_field _) as [cv|ce] eqn:Hc.
  - destruct (JsNumber.isNaN _);
      [intros [= <-]; right; left; discriminate|].
    destruct (JsNumber.leb _ _);
      [intros [= <-]; right; left; discriminate|].
    destruct (JsNumber.gtb _ _);
      [intros [= <-]; right; left; discriminate|].
    destruct (FormSchema.status_field _) as [sv|se] eqn:Hs; [discriminate|].
    intros [= <-]. right; right. simpl.
    unfold FormSchema.status_field in Hs.
    destruct (get "status" formData) as [[s|f]|]; try (injection Hs as <-; discriminate).
    destruct (String.eqb s "pending"); [discriminate|].
    destruct (String.eqb s "paid"); [discriminate|].
    injection Hs as <-. discriminate.
  - assert (Hce : ce <> []).
    { unfold FormSchema.customerId_field in Hc.
      destruct (get "customerId" formData) as [[s|f]|];
        try (injection Hc as <-; discriminate).
      destruct (String.length s <? 1)%nat; [|discriminate].
      injection Hc as <-. discriminate. }
    destruct (if JsNumber.isNaN _ then _ else _), (FormSchema.status_field _);
      intros [= <-]; left; exact Hce.
Qed.

Lemma split_T_0_app day time :
  contains "T" day = false -> split_T_0 (day ++ String "T" time) = day.
Proof.
  induction day as [|c day IH]; cbn [contains split_T_0 append].
  - rewrite Ascii.eqb_refl. reflexivity.
  - rewrite (Ascii.eqb_sym "T" c).
    destruct (Ascii.eqb c "T"); cbn [orb]; intros Hd; [discriminate Hd|].
    rewrite (IH Hd). reflexivity.
Qed.

Lemma safeParse_invoice_form_15_50 c :
  c <> "" ->
  FormSchema.safeParse (invoice_form c "15.50" "pending") =
    Success {| customerId := c;
               amount := StringToNumber.StringToNumber "15.50";
               status := pending |}.
Proof. destruct c; [contradiction | reflexivity]. Qed.

(** ** The claims about the actions *)

(** C1 (amended). For every validated invoice submission, with [a] the
    number its amount field coerces to, the one SQL statement that
    [createInvoice] and [updateInvoice] issue carries as its amount the
    binary64 product [a * 100] as computed: nothing truncates or rounds it
    to an integer.  That statement is the first call of the action, and
    the only calls after it are the cache invalidation and the redirect. *)
Theorem amount_written_is_product prevState id formData w data :
  FormSchema.safeParse formData = Success data ->
  let cents := JsNumber.mul (amount data) (JsNumber.of_Z 100) in
  amount data = Number (get "amount" formData)
  /\ (exists rest,
        calls (snd (createInvoice prevState formData w)) =
          (calls w ++ CallSql (InsertInvoice (customerId data) cents (status data)
                                 (split_T_0 Date_toISOString)) :: rest)%list
        /\ (rest = [] \/
            rest = [CallRevalidatePath invoices_path; CallRedirect invoices_path]))
  /\ (uuid_test id = true ->
      exists rest,
        calls (snd (updateInvoice id prevState formData w)) =
          (calls w ++ CallSql (UpdateInvoice (customerId data) cents (status data) id)
                   :: rest)%list
        /\ (rest = [] \/
            rest = [CallRevalidatePath invoices_path; CallRedirect invoices_path])).
Proof.
  intros Hv cents. split; [exact (safeParse_amount _ _ Hv)|]. split.
  - destruct (sql_exec (InsertInvoice (customerId data) cents (status data)
                          (split_T_0 Date_toISOString)) (database w)) as [db'|e] eqn:Hq.
    + rewrite (createInvoice_inserted prevState _ _ _ _ Hv Hq). cbn [snd calls].
      eexists; split; [reflexivity | auto].
    + rewrite (createInvoice_database_error prevState _ _ _ _ Hv Hq). cbn [snd calls].
      eexists; split; [reflexivity | auto].
  - intros Hid.
    destruct (sql_exec (UpdateInvoice (customerId data) cents (status data) id)
                (database w)) as [db'|e] eqn:Hq.
    + rewrite (updateInvoice_updated _ prevState _ _ _ _ Hid Hv Hq). cbn [snd calls].
      eexists; split; [reflexivity | auto].
    + rewrite (updateInvoice_database_error _ prevState _ _ _ _ Hid Hv Hq). cbn [snd calls].
      eexists; split; [reflexivity | auto].
Qed.

(** C3. For every id that the UUID pattern refuses, [updateInvoice] and
    [deleteInvoice] return the message ['Invalid ID format.'] and issue no
    call at all: no SQL statement reaches the client and the database is
    as it was. *)
Theorem invalid_id_rejected_without_sql id prevState formData w :
  uuid_test id = false ->
  fst (updateInvoice id prevState formData w) =
    Returned {| errors := None; message := Some "Invalid ID format." |}
  /\ calls (snd (updateInvoice id prevState formData w)) = calls w
  /\ database (snd (updateInvoice id prevState formData w)) = database w
  /\ fst (deleteInvoice id w) = Returned {| delete_message := "Invalid ID format." |}
  /\ calls (snd (deleteInvoice id w)) = calls w
  /\ database (snd (deleteInvoice id w)) = database w.
Proof.
  intros Hid.
  rewrite (updateInvoice_invalid_id _ prevState formData w Hid).
  rewrite deleteInvoice_cases, Hid. repeat split.
Qed.

(** C4. On the submission [{customerId: c, amount: "15.50", status:
    "pending"}], with [c] any non-empty customer id (a valid UUID in
    particular) and the insert succeeding, [createInvoice] issues exactly
    one statement, the INSERT of amount 1550, status ['pending'] and the
    calendar date of the current instant, then invalidates the cache of
    ['/dashboard/invoices'], then redirects to ['/dashboard/invoices'], in
    that order, and the database is in the state the insert left. *)
Theorem createInvoice_pending_15_50 prevState c w db' day time :
  c <> "" ->
  Date_toISOString = day ++ String "T" time ->
  contains "T" day = false ->
  sql_exec (InsertInvoice c (JsNumber.of_Z 1550) pending day) (database w) = SqlOk db' ->
  createInvoice prevState (invoice_form c "15.50" "pending") w =
    (Thrown (NextRedirect "/dashboard/invoices"),
     {| database := db';
        calls := (calls w ++
                  [CallSql (InsertInvoice c (JsNumber.of_Z 1550) pending day);
                   CallRevalidatePath "/dashboard/invoices";
                   CallRedirect "/dashboard/invoices"])%list;
        console := (console w ++ ["validatedFields"; "[createInvoice] Success"])%list |}).
Proof.
  intros Hc Hnow Hday Hq.
  pose proof (safeParse_invoice_form_15_50 c Hc) as Hv.
  pose proof (createInvoice_inserted prevState _ w _ db' Hv) as Hrun.
  cbn [customerId amount status] in Hrun.
  rewrite Hnow, (split_T_0_app day time Hday) in Hrun.
  change (JsNumber.mul (StringToNumber.StringToNumber "15.50") (JsNumber.of_Z 100))
    with (JsNumber.of_Z 1550) in Hrun.
  exact (Hrun Hq).
Qed.

(** C6. When the e-mail or the password fails the shape validation,
    [authenticate] returns ['Invalid input format.'] and the sign-in
    provider is not called.  When the provider raises its [AuthError] of
    type ['CredentialsSignin'] the result is ['Invalid credentials.'];
    for an [AuthError] of any other type it is ['Something went wrong.'];
    any exception that is not an [AuthError] is raised again. *)
Theorem authenticate_failures prevState formData w :
  (is_success (AuthSchema_safeParse formData) = false ->
     fst (authenticate prevState formData w) = Returned (Some "Invalid input format.")
     /\ calls (snd (authenticate prevState formData w)) = calls w)
  /\ (is_success (AuthSchema_safeParse formData) = true ->
      signIn_exec "credentials" formData = Some (AuthError "CredentialsSignin") ->
      fst (authenticate prevState formData w) = Returned (Some "Invalid credentials."))
  /\ (forall type,
        is_success (AuthSchema_safeParse formData) = true ->
        signIn_exec "credentials" formData = Some (AuthError type) ->
        type <> "CredentialsSignin" ->
        fst (authenticate prevState formData w) = Returned (Some "Something went wrong."))
  /\ (forall e,
        is_success (AuthSchema_safeParse formData) = true ->
        signIn_exec "credentials" formData = Some e ->
        (forall type, e <> AuthError type) ->
        fst (authenticate prevState formData w) = Thrown e).
Proof.
  rewrite authenticate_cases. split; [|split; [|split]].
  - intros Hv. rewrite Hv. split; reflexivity.
  - intros Hv Hs. rewrite Hv, Hs. reflexivity.
  - intros type Hv Hs Ht. rewrite Hv, Hs. cbn [fst].
    destruct (String.eqb type "CredentialsSignin") eqn:E; [|reflexivity].
    apply String.eqb_eq in E. contradiction.
  - intros e Hv Hs He. rewrite Hv, Hs.
    destruct e; try reflexivity. exfalso. exact (He _ eq_refl).
Qed.

(** C7. [deleteInvoice] and [deleteInvoiceAction] leave the same database
    and the same calls behind on every id.  On an id the UUID pattern
    accepts both issue the single DELETE keyed by that id, followed, when
    it succeeds, by the invalidation of ['/dashboard/invoices'].  They
    differ in how they answer: [deleteInvoice] returns a message, where
    [deleteInvoiceAction] returns nothing on success and raises an [Error]
    with that message on an invalid id or a database failure. *)
Theorem delete_variants_same_mutation id w :
  database (snd (deleteInvoice id w)) = database (snd (deleteInvoiceAction id w))
  /\ calls (snd (deleteInvoice id w)) = calls (snd (deleteInvoiceAction id w))
  /\ if uuid_test id then
       match sql_exec (DeleteInvoice id) (database w) with
       | SqlOk db' =>
           database (snd (deleteInvoice id w)) = db'
           /\ calls (snd (deleteInvoice id w)) =
                (calls w ++ [CallSql (DeleteInvoice id);
                             CallRevalidatePath "/dashboard/invoices"])%list
           /\ fst (deleteInvoice id w) = Returned {| delete_message := "Deleted Invoice." |}
           /\ fst (deleteInvoiceAction id w) = Returned tt
       | SqlError _ =>
           database (snd (deleteInvoice id w)) = database w
           /\ calls (snd (deleteInvoice id w)) = (calls w ++ [CallSql (DeleteInvoice id)])%list
           /\ fst (deleteInvoice id w) =
                Returned {| delete_message := "Database Error: Failed to Delete Invoice." |}
           /\ fst (deleteInvoiceAction id w) =
                Thrown (JsError "Database Error: Failed to Delete Invoice.")
       end
     else
       database (snd (deleteInvoice id w)) = database w
       /\ calls (snd (deleteInvoice id w)) = calls w
       /\ fst (deleteInvoice id w) = Returned {| delete_message := "Invalid ID format." |}
       /\ fst (deleteInvoiceAction id w) = Thrown (JsError "Invalid ID format.").
Proof.
  rewrite deleteInvoice_cases, deleteInvoiceAction_cases.
  destruct (uuid_test id); [|repeat split].
  destruct (sql_exec (DeleteInvoice id) (database w)); repeat split.
Qed.

(** C8. When field validation fails, [createInvoice] returns the
    per-field error lists together with a message, and so does
    [updateInvoice] once the id has passed its own check; the error
    object names at least one field; and neither action issues any call:
    no SQL statement, no cache invalidation, no redirect, and the database
    is as it was. *)
Theorem validation_failure_no_mutation id prevState formData w fieldErrors :
  FormSchema.safeParse formData = Failure fieldErrors ->
  (customerId_errors fieldErrors <> [] \/ amount_errors fieldErrors <> []
   \/ status_errors fieldErrors <> [])
  /\ fst (createInvoice prevState formData w) =
       Returned {| errors := Some fieldErrors;
                   message := Some "Missing Fields. Failed to Create Invoice." |}
  /\ calls (snd (createInvoice prevState formData w)) = calls w
  /\ database (snd (createInvoice prevState formData w)) = database w
  /\ fst (updateInvoice id prevState formData w) =
       Returned (if uuid_test id
                 then {| errors := Some fieldErrors;
                         message := Some "Missing Fields. Failed to Update Invoice." |}
                 else {| errors := None; message := Some "Invalid ID format." |})
  /\ calls (snd (updateInvoice id prevState formData w)) = calls w
  /\ database (snd (updateInvoice id prevState formData w)) = database w.
Proof.
  intros Hv. split; [exact (safeParse_failure_names_a_field _ _ Hv)|].
  rewrite (createInvoice_rejected prevState _ w _ Hv).
  destruct (uuid_test id) eqn:Hid.
  - rewrite (updateInvoice_rejected _ prevState _ w _ Hid Hv). repeat split.
  - rewrite (updateInvoice_invalid_id _ prevState formData w Hid). repeat split.
Qed.

(** C9. When the e-mail and the password pass the shape validation and
    the provider call does not raise, [authenticate] returns [undefined]:
    there is no success message. *)
Theorem authenticate_success_undefined prevState formData w :
  is_success (AuthSchema_safeParse formData) = true ->
  signIn_exec "credentials" formData = None ->
  fst (authenticate prevState formData w) = Returned None.
Proof.
  intros Hv Hs. rewrite authenticate_cases, Hv, Hs. reflexivity.
Qed.

(** C10. [deleteInvoice] returns on every id and never raises: its result
    is a record whose message is ['Invalid ID format.'] when the id is
    refused, ['Deleted Invoice.'] when the DELETE succeeds, and ['Database
    Error: Failed to Delete Invoice.'] whenever the database raises,
    whatever the exception. *)
Theorem deleteInvoice_total id w :
  exists m w',
    deleteInvoice id w = (Returned {| delete_message := m |}, w')
    /\ (m = "Invalid ID format." \/ m = "Deleted Invoice."
        \/ m = "Database Error: Failed to Delete Invoice.")
    /\ m = (if uuid_test id then
              match sql_exec (DeleteInvoice id) (database w) with
              | SqlOk _ => "Deleted Invoice."
              | SqlError _ => "Database Error: Failed to Delete Invoice."
              end
            else "Invalid ID format.").
Proof.
  rewrite deleteInvoice_cases.
  destruct (uuid_test id).
  - destruct (sql_exec (DeleteInvoice id) (database w));
      do 2 eexists; split; [reflexivity | auto | reflexivity | auto].
  - do 2 eexists; split; [reflexivity | auto].
Qed.

End Properties.

(** ** The payload-size guard against the claim *)

(** C2. The guard does not look at the entries: its answer is the same
    for any two submissions.  A submission whose
    customer field alone has 2048 characters, beyond the default limit of
    1024 bytes, passes [validatePayloadSize], as every submission does;
    [createInvoice] then validates the fields and runs the INSERT instead
    of answering ['Request payload too large.']. *)
Theorem oversized_form_passes_guard :
  (forall formData formData' maxSizeKB,
     validatePayloadSize formData maxSizeKB = validatePayloadSize formData' maxSizeKB)
  /\ (forall formData, validatePayloadSize formData default_maxSizeKB = true)
  /\ (1024 < serialized_size Reference.oversized_form)%Z
  /\ fst (@createInvoice Reference.online initial_state Reference.oversized_form
            (Reference.start Reference.online Reference.empty_table)) =
       Thrown (NextRedirect "/dashboard/invoices")
  /\ calls (snd (@createInvoice Reference.online initial_state Reference.oversized_form
                   (Reference.start Reference.online Reference.empty_table))) =
       [CallSql (InsertInvoice Reference.long_text (JsNumber.of_Z 1000) pending "2024-05-17");
        CallRevalidatePath "/dashboard/invoices";
        CallRedirect "/dashboard/invoices"].
Proof.
  split; [reflexivity|].
  split; [exact validatePayloadSize_default|].
  split; [vm_compute; reflexivity|].
  split; vm_compute; reflexivity.
Qed.

(** ** Concrete runs *)

(** C1, as stated, fails on the amount ["0.005"]: the submission is
    valid, and the INSERT carries one half, which is not an integer and is
    not its own truncation (zero). *)
Lemma createInvoice_writes_half_a_cent :
  let formData := invoice_form Reference.a_uuid "0.005" "pending" in
  let half := JsNumber.of_ratio false 1 2 in
  is_success (FormSchema.safeParse formData) = true
  /\ calls (snd (@createInvoice Reference.online initial_state formData
                   (Reference.start Reference.online Reference.empty_table))) =
       [CallSql (InsertInvoice Reference.a_uuid half pending "2024-05-17");
        CallRevalidatePath "/dashboard/invoices";
        CallRedirect "/dashboard/invoices"]
  /\ JsNumber.is_integer half = false
  /\ JsNumber.trunc half = JsNumber.pos_zero.
Proof. repeat split. Qed.

(** The amended C1 on the submission of 15.50 dollars: the INSERT and
    the UPDATE carry 1550. *)
Lemma amount_written_is_product_witness :
  let formData := invoice_form Reference.a_uuid "15.50" "pending" in
  let w := Reference.start Reference.online Reference.empty_table in
  FormSchema.safeParse formData =
    Success {| customerId := Reference.a_uuid;
               amount := JsNumber.of_ratio false 31 2;
               status := pending |}
  /\ Reference.is_uuid Reference.a_uuid = true
  /\ (exists rest,
        calls (snd (@createInvoice Reference.online initial_state formData w)) =
          CallSql (InsertInvoice Reference.a_uuid (JsNumber.of_Z 1550) pending "2024-05-17")
            :: rest
        /\ (rest = [] \/
            rest = [CallRevalidatePath invoices_path; CallRedirect invoices_path]))
  /\ (exists rest,
        calls (snd (@updateInvoice Reference.online Reference.a_uuid initial_state formData w)) =
          CallSql (UpdateInvoice Reference.a_uuid (JsNumber.of_Z 1550) pending Reference.a_uuid)
            :: rest
        /\ (rest = [] \/
            rest = [CallRevalidatePath invoices_path; CallRedirect invoices_path])).
Proof.
  intros formData w.
  pose proof (@amount_written_is_product Reference.online initial_state
                Reference.a_uuid formData w _ eq_refl) as [_ [Hc Hu]].
  split; [reflexivity|]. split; [reflexivity|]. split.
  - exact Hc.
  - exact (Hu eq_refl).
Defined.

(** C3 on the id ["not-a-uuid"]. *)
Lemma invalid_id_rejected_without_sql_witness :
  let formData := invoice_form Reference.a_uuid "15.50" "pending" in
  let w := Reference.start Reference.online Reference.empty_table in
  Reference.is_uuid "not-a-uuid" = false
  /\ fst (@updateInvoice Reference.online "not-a-uuid" initial_state formData w) =
       Returned {| errors := None; message := Some "Invalid ID format." |}
  /\ calls (snd (@updateInvoice Reference.online "not-a-uuid" initial_state formData w)) = []
  /\ database (snd (@updateInvoice Reference.online "not-a-uuid" initial_state formData w)) =
       Reference.empty_table
  /\ fst (@deleteInvoice Reference.online "not-a-uuid" w) =
       Returned {| delete_message := "Invalid ID format." |}
  /\ calls (snd (@deleteInvoice Reference.online "not-a-uuid" w)) = []
  /\ database (snd (@deleteInvoice Reference.online "not-a-uuid" w)) = Reference.empty_table.
Proof.
  intros formData w. split; [reflexivity|].
  exact (@invalid_id_rejected_without_sql Reference.online "not-a-uuid"
           initial_state formData w eq_refl).
Defined.

(** C4 on the reference platform: the table, empty before, holds exactly
    one row afterwards, with amount 1550, status pending and the date of
    the day. *)
Lemma createInvoice_pending_15_50_witness :
  @createInvoice Reference.online initial_state
    (invoice_form Reference.a_uuid "15.50" "pending")
    (Reference.start Reference.online Reference.empty_table) =
  (Thrown (NextRedirect "/dashboard/invoices"),
   @Build_World Reference.online
        {| Reference.rows :=
             [{| Reference.row_id := Reference.generated_id 0;
                 Reference.row_customer_id := Reference.a_uuid;
                 Reference.row_amount := JsNumber.of_Z 1550;
                 Reference.row_status := pending;
                 Reference.row_date := "2024-05-17" |}];
           Reference.next_id := 1 |}
        [CallSql (InsertInvoice Reference.a_uuid (JsNumber.of_Z 1550) pending "2024-05-17");
         CallRevalidatePath "/dashboard/invoices";
         CallRedirect "/dashboard/invoices"]
        ["validatedFields"; "[createInvoice] Success"]).
Proof.
  refine (@createInvoice_pending_15_50 Reference.online initial_state Reference.a_uuid
            (Reference.start Reference.online Reference.empty_table) _
            "2024-05-17" "09:30:00.000Z" _ eq_refl eq_refl eq_refl).
  discriminate.
Defined.

(** C5 on three submissions: an accepted one, an amount of zero and an
    amount one cent above the limit. *)
Lemma FormSchema_accepts_iff_witness :
  is_success (FormSchema.safeParse (invoice_form Reference.a_uuid "1000000" "paid")) = true
  /\ (exists fieldErrors,
        FormSchema.safeParse (invoice_form Reference.a_uuid "0" "paid") = Failure fieldErrors
        /\ amount_errors fieldErrors = ["Please enter an amount greater than $0."])
  /\ (exists fieldErrors,
        FormSchema.safeParse (invoice_form Reference.a_uuid "1000000.01" "paid")
          = Failure fieldErrors
        /\ amount_errors fieldErrors = ["Amount cannot exceed $1,000,000."]).
Proof.
  split; [|split].
  - apply (proj1 (FormSchema_accepts_iff (invoice_form Reference.a_uuid "1000000" "paid"))).
    split; [|split].
    + exists Reference.a_uuid. split; [reflexivity | discriminate].
    + split; reflexivity.
    + right. reflexivity.
  - exact (proj1 (proj2 (FormSchema_accepts_iff (invoice_form Reference.a_uuid "0" "paid")))
             eq_refl).
  - exact (proj2 (proj2 (FormSchema_accepts_iff
                           (invoice_form Reference.a_uuid "1000000.01" "paid")))
             eq_refl).
Defined.

(** C6 on four runs: an empty e-mail; a wrong password; a provider that
    raises another [AuthError]; a provider that raises something else. *)
Lemma authenticate_failures_witness :
  let w := Reference.start Reference.online Reference.empty_table in
  let other_auth_error := fun (_ : string) (_ : FormData) => Some (AuthError "CallbackRouteError") in
  let crash := fun (_ : string) (_ : FormData) => Some (ForeignError "fetch failed") in
  let user := login_form "user@nextmail.com" "123456" in
  (fst (@authenticate Reference.online None (login_form "" "123456") w) =
     Returned (Some "Invalid input format.")
   /\ calls (snd (@authenticate Reference.online None (login_form "" "123456") w)) = [])
  /\ fst (@authenticate Reference.online None (login_form "user@nextmail.com" "wrong-password") w) =
       Returned (Some "Invalid credentials.")
  /\ fst (@authenticate (Reference.platform true other_auth_error) None user
            (Reference.start (Reference.platform true other_auth_error)
               Reference.empty_table)) =
       Returned (Some "Something went wrong.")
  /\ fst (@authenticate (Reference.platform true crash) None user
            (Reference.start (Reference.platform true crash) Reference.empty_table)) =
       Thrown (ForeignError "fetch failed").
Proof.
  intros w other_auth_error crash user. split; [|split; [|split]].
  - exact (proj1 (@authenticate_failures Reference.online None
                    (login_form "" "123456") w) eq_refl).
  - exact (proj1 (proj2 (@authenticate_failures Reference.online None
                           (login_form "user@nextmail.com" "wrong-password") w))
             eq_refl eq_refl).
  - apply (proj1 (proj2 (proj2 (@authenticate_failures
                                  (Reference.platform true other_auth_error) None user
                                  (Reference.start (Reference.platform true other_auth_error)
                                     Reference.empty_table))))
             "CallbackRouteError" eq_refl eq_refl).
    discriminate.
  - apply (proj2 (proj2 (proj2 (@authenticate_failures
                                  (Reference.platform true crash) None user
                                  (Reference.start (Reference.platform true crash)
                                     Reference.empty_table))))
             (ForeignError "fetch failed") eq_refl eq_refl).
    discriminate.
Defined.

(** C8 on a submission with no customer, a negative amount and an unknown
    status. *)
Lemma validation_failure_no_mutation_witness :
  let formData := invoice_form "" "-3" "draft" in
  let w := Reference.start Reference.online Reference.empty_table in
  let fieldErrors :=
    {| customerId_errors := ["Customer ID is required."];
       amount_errors := ["Please enter an amount greater than $0."];
       status_errors :=
         ["Invalid enum value. Expected 'pending' | 'paid', received 'draft'"] |} in
  FormSchema.safeParse formData = Failure fieldErrors
  /\ fst (@createInvoice Reference.online initial_state formData w) =
       Returned {| errors := Some fieldErrors;
                   message := Some "Missing Fields. Failed to Create Invoice." |}
  /\ calls (snd (@createInvoice Reference.online initial_state formData w)) = []
  /\ database (snd (@createInvoice Reference.online initial_state formData w)) =
       Reference.empty_table
  /\ fst (@updateInvoice Reference.online Reference.a_uuid initial_state formData w) =
       Returned {| errors := Some fieldErrors;
                   message := Some "Missing Fields. Failed to Update Invoice." |}
  /\ calls (snd (@updateInvoice Reference.online Reference.a_uuid initial_state formData w)) = []
  /\ database (snd (@updateInvoice Reference.online Reference.a_uuid initial_state formData w)) =
       Reference.empty_table.
Proof.
  intros formData w fieldErrors. split; [reflexivity|].
  exact (proj2 (@validation_failure_no_mutation Reference.online Reference.a_uuid
                  initial_state formData w fieldErrors eq_refl)).
Defined.

(** C9 on the user the reference provider knows. *)
Lemma authenticate_success_undefined_witness :
  let formData := login_form "user@nextmail.com" "123456" in
  is_success (@AuthSchema_safeParse Reference.online formData) = true
  /\ Reference.credentials_provider "credentials" formData = None
  /\ fst (@authenticate Reference.online None formData
            (Reference.start Reference.online Reference.empty_table)) = Returned None.
Proof.
  intros formData. split; [reflexivity|]. split; [reflexivity|].
  exact (@authenticate_success_undefined Reference.online None formData
           (Reference.start Reference.online Reference.empty_table) eq_refl eq_refl).
Defined.

(** * Further properties of the code *)

Section MoreProperties.
Context `{Platform}.

Ltac run :=
  unfold createInvoice, updateInvoice, deleteInvoice, deleteInvoiceAction,
    authenticate, Revision1.createInvoice, withMonitoring,
    CreateInvoice_safeParse, UpdateInvoice_safeParse,
    IdSchema_safeParse, redirect, revalidatePath, signIn, record_call,
    console_error, console_log, sql, try_catch, bind, ret, throw;
  rewrite ?validatePayloadSize_default; cbn [negb database calls console].

(** X1. [withMonitoring] is transparent: the wrapped function's result or
    exception, the database and the calls are those of the function run
    alone; the only difference is one more console line, the success
    line after a result and the error line after an exception. *)
Theorem withMonitoring_transparent {T R : Type} (fn : T -> Action R)
  (functionName : string) (args : T) (w : World) :
  fst (withMonitoring fn functionName args w) = fst (fn args w)
  /\ database (snd (withMonitoring fn functionName args w)) = database (snd (fn args w))
  /\ calls (snd (withMonitoring fn functionName args w)) = calls (snd (fn args w))
  /\ console (snd (withMonitoring fn functionName args w)) =
       (console (snd (fn args w))
        ++ [match fst (fn args w) with
            | Returned _ => ("[" ++ functionName ++ "] Success")%string
            | Thrown _ => ("[" ++ functionName ++ "] Error:")%string
            end])%list.
Proof.
  run. destruct (fn args w) as [[r|e] w']; repeat split.
Qed.

(** ** The form actions *)

(** X2. A run of [createInvoice] ends in one of two ways.  It raises
    only the redirect to ['/dashboard/invoices'], and then the INSERT of
    the validated data succeeded and was followed by the cache
    invalidation and the redirect.  Or it returns a state with a message,
    and then the database is as it was: either field validation failed,
    the state carries the per-field errors and nothing was issued, or the
    database refused the INSERT and the state carries the fixed database
    error message, whatever the exception was.  No database exception
    escapes. *)
Theorem createInvoice_outcomes prevState formData w :
  match fst (createInvoice prevState formData w) with
  | Thrown e =>
      e = NextRedirect "/dashboard/invoices"
      /\ exists data db',
           FormSchema.safeParse formData = Success data
           /\ sql_exec (InsertInvoice (customerId data)
                          (JsNumber.mul (amount data) (JsNumber.of_Z 100))
                          (status data) (split_T_0 Date_toISOString)) (database w)
                = SqlOk db'
           /\ database (snd (createInvoice prevState formData w)) = db'
           /\ calls (snd (createInvoice prevState formData w)) =
                (calls w ++
                 [CallSql (InsertInvoice (customerId data)
                             (JsNumber.mul (amount data) (JsNumber.of_Z 100))
                             (status data) (split_T_0 Date_toISOString));
                  CallRevalidatePath "/dashboard/invoices";
                  CallRedirect "/dashboard/invoices"])%list
  | Returned state =>
      database (snd (createInvoice prevState formData w)) = database w
      /\ ((exists fieldErrors,
             FormSchema.safeParse formData = Failure fieldErrors
             /\ state = {| errors := Some fieldErrors;
                           message := Some "Missing Fields. Failed to Create Invoice." |}
             /\ calls (snd (createInvoice prevState formData w)) = calls w)
          \/ (state = {| errors := None;
                         message := Some "Database Error: Failed to Create Invoice." |}
              /\ exists q e,
                   sql_exec q (database w) = SqlError e
                   /\ calls (snd (createInvoice prevState formData w)) =
                        (calls w ++ [CallSql q])%list))
  end.
Proof.
  destruct (FormSchema.safeParse formData) as [data|fieldErrors] eqn:Hv.
  - destruct (sql_exec (InsertInvoice (customerId data)
                          (JsNumber.mul (amount data) (JsNumber.of_Z 100))
                          (status data) (split_T_0 Date_toISOString)) (database w))
      as [db'|e] eqn:Hq.
    + rewrite (createInvoice_inserted prevState _ _ _ _ Hv Hq). cbn [fst snd database calls].
      split; [reflexivity|]. exists data, db'. auto.
    + rewrite (createInvoice_database_error prevState _ _ _ _ Hv Hq).
      cbn [fst snd database calls].
      split; [reflexivity|]. right. split; [reflexivity|]. eauto.
  - rewrite (createInvoice_rejected prevState _ w _ Hv).
    cbn [fst snd database calls].
    split; [reflexivity|]. left. exists fieldErrors. auto.
Qed.

(** X3. The same for [updateInvoice]: it raises only the redirect, after
    the UPDATE keyed by the given id succeeded and was followed by the
    cache invalidation and the redirect; otherwise it returns a state
    with a message and the database is as it was: the id was refused, or
    field validation failed (nothing issued in both cases), or the
    database refused the UPDATE and the state carries the fixed database
    error message, whatever the exception was. *)
Theorem updateInvoice_outcomes id prevState formData w :
  match fst (updateInvoice id prevState formData w) with
  | Thrown e =>
      e = NextRedirect "/dashboard/invoices"
      /\ uuid_test id = true
      /\ exists data db',
           FormSchema.safeParse formData = Success data
           /\ sql_exec (UpdateInvoice (customerId data)
                          (JsNumber.mul (amount data) (JsNumber.of_Z 100))
                          (status data) id) (database w)
                = SqlOk db'
           /\ database (snd (updateInvoice id prevState formData w)) = db'
           /\ calls (snd (updateInvoice id prevState formData w)) =
                (calls w ++
                 [CallSql (UpdateInvoice (customerId data)
                             (JsNumber.mul (amount data) (JsNumber.of_Z 100))
                             (status data) id);
                  CallRevalidatePath "/dashboard/invoices";
                  CallRedirect "/dashboard/invoices"])%list
  | Returned state =>
      database (snd (updateInvoice id prevState formData w)) = database w
      /\ ((uuid_test id = false
           /\ state = {| errors := None; message := Some "Invalid ID format." |}
           /\ calls (snd (updateInvoice id prevState formData w)) = calls w)
          \/ (exists fieldErrors,
                FormSchema.safeParse formData = Failure fieldErrors
                /\ state = {| errors := Some fieldErrors;
                              message := Some "Missing Fields. Failed to Update Invoice." |}
                /\ calls (snd (updateInvoice id prevState formData w)) = calls w)
          \/ (state = {| errors := None;
                         message := Some "Database Error: Failed to Update Invoice." |}
              /\ exists q e,
                   sql_exec q (database w) = SqlError e
                   /\ calls (snd (updateInvoice id prevState formData w)) =
                        (calls w ++ [CallSql q])%list))
  end.
Proof.
  destruct (uuid_test id) eqn:Hid.
  - destruct (FormSchema.safeParse formData) as [data|fieldErrors] eqn:Hv.
    + destruct (sql_exec (UpdateInvoice (customerId data)
                            (JsNumber.mul (amount data) (JsNumber.of_Z 100))
                            (status data) id) (database w)) as [db'|e] eqn:Hq.
      * rewrite (updateInvoice_updated _ prevState _ _ _ _ Hid Hv Hq).
        cbn [fst snd database calls].
        split; [reflexivity|]. split; [reflexivity|]. exists data, db'. auto.
      * rewrite (updateInvoice_database_error _ prevState _ _ _ _ Hid Hv Hq).
        cbn [fst snd database calls].
        split; [reflexivity|]. right; right. split; [reflexivity|]. eauto.
    + rewrite (updateInvoice_rejected _ prevState _ w _ Hid Hv).
      cbn [fst snd]. split; [reflexivity|]. right; left. exists fieldErrors. auto.
  - rewrite (updateInvoice_invalid_id _ prevState formData w Hid).
    cbn [fst snd database calls]. split; [reflexivity|]. left. auto.
Qed.

(** ** The earlier revision *)

Lemma revision1_cases formData w :
  Revision1.createInvoice formData w =
    match Revision1.CreateInvoice_parse formData with
    | None => (Thrown Revision1.ZodError, w)
    | Some data =>
        match sql_exec (InsertInvoice (customerId data)
                          (JsNumber.mul (amount data) (JsNumber.of_Z 100))
                          (status data) (split_T_0 Date_toISOString)) (database w) with
        | SqlOk db' =>
            (Thrown (NextRedirect "/dashboard/invoices"),
             {| database := db';
                calls := (calls w ++
                          [CallSql (InsertInvoice (customerId data)
                                      (JsNumber.mul (amount data) (JsNumber.of_Z 100))
                                      (status data) (split_T_0 Date_toISOString));
                           CallRevalidatePath "/dashboard/invoices";
                           CallRedirect "/dashboard/invoices"])%list;
                console := console w |})
        | SqlError e =>
            (Thrown e,
             {| database := database w;
                calls := (calls w ++
                          [CallSql (InsertInvoice (customerId data)
                                      (JsNumber.mul (amount data) (JsNumber.of_Z 100))
                                      (status data) (split_T_0 Date_toISOString))])%list;
                console := console w |})
        end
    end.
Proof.
  run. destruct (Revision1.CreateInvoice_parse formData) as [data|]; [|reflexivity].
  destruct (sql_exec _ (database w)); cbn [database calls console];
    rewrite <- ?app_assoc; reflexivity.
Qed.

Lemma safeParse_implies_parse formData data :
  FormSchema.safeParse formData = Success data ->
  Revision1.CreateInvoice_parse formData = Some data.
Proof.
  unfold FormSchema.safeParse, Revision1.CreateInvoice_parse.
  rewrite amount_field_cases. unfold Revision1.amount_field.
  unfold FormSchema.customerId_field, Revision1.customerId_field.
  unfold FormSchema.status_field, Revision1.status_field.
  destruct (get "customerId" formData) as [[c|f]|]; try discriminate.
  destruct (String.length c <? 1)%nat; try discriminate.
  destruct (JsNumber.isNaN _); try discriminate.
  destruct (JsNumber.leb _ _); try discriminate.
  destruct (JsNumber.gtb _ _); try discriminate.
  destruct (get "status" formData) as [[s|f]|]; try discriminate.
  destruct (String.eqb s "pending"); [intros [= <-]; reflexivity|].
  destruct (String.eqb s "paid"); [intros [= <-]; reflexivity|discriminate].
Qed.

(** X4. The schema of the earlier revision accepts a submission exactly
    when [customerId] is a string, empty or not, [amount] coerces to
    anything but [NaN], with no bound, and [status] is ['pending'] or
    ['paid']; the data are then the submitted string, the coerced number
    and the status. *)
Theorem revision1_accepts_iff formData data :
  Revision1.CreateInvoice_parse formData = Some data <->
  get "customerId" formData = Some (EntryString (customerId data))
  /\ amount data = Number (get "amount" formData)
  /\ JsNumber.isNaN (amount data) = false
  /\ get "status" formData = Some (EntryString (InvoiceStatus_to_string (status data))).
Proof.
  unfold Revision1.CreateInvoice_parse, Revision1.customerId_field,
    Revision1.amount_field, Revision1.status_field.
  split.
  - destruct (get "customerId" formData) as [[c|f]|]; try discriminate.
    destruct (JsNumber.isNaN (Number (get "amount" formData))) eqn:Hn; try discriminate.
    destruct (get "status" formData) as [[s|f]|]; try discriminate.
    destruct (String.eqb s "pending") eqn:E1.
    + apply String.eqb_eq in E1. subst. intros [= <-]. auto.
    + destruct (String.eqb s "paid") eqn:E2; try discriminate.
      apply String.eqb_eq in E2. subst. intros [= <-]. auto.
  - destruct data as [c a s]. cbn [customerId amount status].
    intros (-> & -> & Hn & ->). rewrite Hn.
    destruct s; reflexivity.
Qed.


(** X6. On every submission that the later revision's validator accepts,
    the two revisions of [createInvoice] issue the same calls and leave
    the same database.  They end alike in the redirect when the INSERT
    succeeds; when the database raises, the earlier revision lets the
    exception through where the later one returns its database error
    message. *)
Theorem revisions_agree_on_accepted prevState formData w data :
  FormSchema.safeParse formData = Success data ->
  calls (snd (createInvoice prevState formData w)) =
    calls (snd (Revision1.createInvoice formData w))
  /\ database (snd (createInvoice prevState formData w)) =
       database (snd (Revision1.createInvoice formData w))
  /\ match sql_exec (InsertInvoice (customerId data)
                       (JsNumber.mul (amount data) (JsNumber.of_Z 100))
                       (status data) (split_T_0 Date_toISOString)) (database w) with
     | SqlOk _ =>
         fst (createInvoice prevState formData w) = Thrown (NextRedirect "/dashboard/invoices")
         /\ fst (Revision1.createInvoice formData w) =
              Thrown (NextRedirect "/dashboard/invoices")
     | SqlError e =>
         fst (createInvoice prevState formData w) =
           Returned {| errors := None;
                       message := Some "Database Error: Failed to Create Invoice." |}
         /\ fst (Revision1.createInvoice formData w) = Thrown e
     end.
Proof.
  intros Hv. rewrite revision1_cases, (safeParse_implies_parse _ _ Hv).
  destruct (sql_exec _ (database w)) as [db'|e] eqn:Hq.
  - rewrite (createInvoice_inserted prevState _ _ _ _ Hv Hq). repeat split.
  - rewrite (createInvoice_database_error prevState _ _ _ _ Hv Hq). repeat split.
Qed.

(** ** Calls *)

(** X7. Every run of an action keeps the calls made before it and adds
    at most one SQL statement to them; [authenticate] adds none. *)
Theorem at_most_one_statement id prevState authState formData w :
  (exists l, calls (snd (createInvoice prevState formData w)) = (calls w ++ l)%list
             /\ (sql_count l <= 1)%nat)
  /\ (exists l, calls (snd (updateInvoice id prevState formData w)) = (calls w ++ l)%list
                /\ (sql_count l <= 1)%nat)
  /\ (exists l, calls (snd (deleteInvoice id w)) = (calls w ++ l)%list
                /\ (sql_count l <= 1)%nat)
  /\ (exists l, calls (snd (deleteInvoiceAction id w)) = (calls w ++ l)%list
                /\ (sql_count l <= 1)%nat)
  /\ (exists l, calls (snd (Revision1.createInvoice formData w)) = (calls w ++ l)%list
                /\ (sql_count l <= 1)%nat)
  /\ (exists l, calls (snd (authenticate authState formData w)) = (calls w ++ l)%list
                /\ sql_count l = 0%nat).
Proof.
  assert (Hnil : forall l : list Call, l = (l ++ [])%list)
    by (intros; rewrite app_nil_r; reflexivity).
  repeat split.
  - destruct (FormSchema.safeParse formData) as [data|fieldErrors] eqn:Hv.
    + destruct (sql_exec (InsertInvoice (customerId data)
                            (JsNumber.mul (amount data) (JsNumber.of_Z 100))
                            (status data) (split_T_0 Date_toISOString)) (database w))
        as [db'|e] eqn:Hq.
      * rewrite (createInvoice_inserted prevState _ _ _ _ Hv Hq).
        eexists. split; [reflexivity | auto].
      * rewrite (createInvoice_database_error prevState _ _ _ _ Hv Hq).
        eexists. split; [reflexivity | auto].
    + rewrite (createInvoice_rejected prevState _ w _ Hv).
      exists []. split; [apply Hnil | auto].
  - destruct (uuid_test id) eqn:Hid.
    + destruct (FormSchema.safeParse formData) as [data|fieldErrors] eqn:Hv.
      * destruct (sql_exec (UpdateInvoice (customerId data)
                              (JsNumber.mul (amount data) (JsNumber.of_Z 100))
                              (status data) id) (database w)) as [db'|e] eqn:Hq.
        -- rewrite (updateInvoice_updated _ prevState _ _ _ _ Hid Hv Hq).
           eexists. split; [reflexivity | auto].
        -- rewrite (updateInvoice_database_error _ prevState _ _ _ _ Hid Hv Hq).
           eexists. split; [reflexivity | auto].
      * rewrite (updateInvoice_rejected _ prevState _ w _ Hid Hv).
        exists []. split; [apply Hnil | auto].
    + rewrite (updateInvoice_invalid_id _ prevState formData w Hid).
      exists []. split; [apply Hnil | auto].
  - rewrite deleteInvoice_cases. destruct (uuid_test id).
    + destruct (sql_exec _ (database w)); eexists; (split; [reflexivity | auto]).
    + exists []. split; [apply Hnil | auto].
  - rewrite deleteInvoiceAction_cases. destruct (uuid_test id).
    + destruct (sql_exec _ (database w)); eexists; (split; [reflexivity | auto]).
    + exists []. split; [apply Hnil | auto].
  - rewrite revision1_cases. destruct (Revision1.CreateInvoice_parse formData).
    + destruct (sql_exec _ (database w)); eexists; (split; [reflexivity | auto]).
    + exists []. split; [apply Hnil | auto].
  - rewrite authenticate_cases. destruct (is_success _).
    + destruct (signIn_exec _ _) as [[]|]; try destruct (String.eqb _ _);
        eexists; (split; [reflexivity | reflexivity]).
    + exists []. split; [apply Hnil | reflexivity].
Qed.

(** ** Authentication *)

(** X8. [authenticate] never touches the database.  When the shape
    validation passes, its only call is the sign-in with the provider
    ['credentials'] and the submitted form as it came; when it fails, it
    makes no call. *)
Theorem authenticate_effects prevState formData w :
  database (snd (authenticate prevState formData w)) = database w
  /\ calls (snd (authenticate prevState formData w)) =
       if is_success (AuthSchema_safeParse formData)
       then (calls w ++ [CallSignIn "credentials" formData])%list
       else calls w.
Proof.
  rewrite authenticate_cases. destruct (is_success _).
  - destruct (signIn_exec _ _) as [[]|]; repeat split.
  - repeat split.
Qed.

Lemma email_field_success v e :
  email_field v = Success e <->
  v = Some (EntryString e) /\ email_test e = true /\ (String.length e <= 255)%nat.
Proof.
  unfold email_field. split.
  - destruct v as [[e'|f]|]; try discriminate.
    destruct (email_test e') eqn:He;
      destruct (255 <? String.length e')%nat eqn:Hle; cbn [app]; try discriminate.
    intros [= <-]. apply Nat.ltb_ge in Hle. auto.
  - intros (-> & He & Hle). apply Nat.ltb_ge in Hle. rewrite He, Hle. reflexivity.
Qed.

Lemma password_field_success v p :
  password_field v = Success p <->
  v = Some (EntryString p) /\ (6 <= String.length p <= 255)%nat.
Proof.
  unfold password_field. split.
  - destruct v as [[p'|f]|]; try discriminate.
    destruct (String.length p' <? 6)%nat eqn:Hp1;
      destruct (255 <? String.length p')%nat eqn:Hp2; cbn [app]; try discriminate.
    intros [= <-]. apply Nat.ltb_ge in Hp1, Hp2. auto.
  - intros (-> & Hp1 & Hp2). apply Nat.ltb_ge in Hp1, Hp2.
    rewrite Hp1, Hp2. reflexivity.
Qed.

(** X9. [AuthSchema] accepts a login form exactly when [email] is a
    string that passes the e-mail pattern and has at most 255 characters,
    and [password] is a string of 6 to 255 characters; the data are then
    these two strings. *)
Theorem AuthSchema_accepts_iff formData e p :
  AuthSchema_safeParse formData = Success {| email := e; password := p |} <->
  get "email" formData = Some (EntryString e)
  /\ email_test e = true
  /\ (String.length e <= 255)%nat
  /\ get "password" formData = Some (EntryString p)
  /\ (6 <= String.length p <= 255)%nat.
Proof.
  split.
  - intros Hs. unfold AuthSchema_safeParse in Hs.
    destruct (email_field _) as [e'|ie] eqn:He;
      destruct (password_field _) as [p'|ip] eqn:Hp; try discriminate.
    injection Hs as <- <-.
    apply email_field_success in He. apply password_field_success in Hp. tauto.
  - intros (Ge & He & Hle & Gp & Hp). unfold AuthSchema_safeParse.
    rewrite (proj2 (email_field_success _ e)) by auto.
    rewrite (proj2 (password_field_success _ p)) by auto.
    reflexivity.
Qed.

(** ** The submission and what the actions read of it *)

(** X10. The form actions read a submission only through the first
    values of [customerId], [amount] and [status]: two submissions that
    agree on these are handled alike, whatever else they carry (an [id]
    or a [date] field, repeated keys) and whatever the previous state
    is. *)
Theorem actions_read_three_fields id prevState prevState' formData formData' w :
  get "customerId" formData = get "customerId" formData' ->
  get "amount" formData = get "amount" formData' ->
  get "status" formData = get "status" formData' ->
  createInvoice prevState formData w = createInvoice prevState' formData' w
  /\ updateInvoice id prevState formData w = updateInvoice id prevState' formData' w
  /\ Revision1.createInvoice formData w = Revision1.createInvoice formData' w.
Proof.
  intros Hc Ha Hs.
  assert (Hv : FormSchema.safeParse formData = FormSchema.safeParse formData')
    by (unfold FormSchema.safeParse; rewrite Hc, Ha, Hs; reflexivity).
  assert (Hp : Revision1.CreateInvoice_parse formData = Revision1.CreateInvoice_parse formData')
    by (unfold Revision1.CreateInvoice_parse; rewrite Hc, Ha, Hs; reflexivity).
  split; [|split].
  - run. rewrite Hv. reflexivity.
  - run. rewrite Hv. reflexivity.
  - rewrite !revision1_cases, Hp. reflexivity.
Qed.

End MoreProperties.

(** ** The validator *)

Lemma safeParse_amount_bounds formData data :
  FormSchema.safeParse formData = Success data ->
  JsNumber.ltb JsNumber.pos_zero (amount data) = true
  /\ JsNumber.leb (amount data) FormSchema.amount_max = true.
Proof.
  intros Hv. rewrite (safeParse_amount _ _ Hv).
  apply amount_field_success.
  assert (Hok : is_success (FormSchema.safeParse formData) = true)
    by (rewrite Hv; reflexivity).
  rewrite safeParse_success, !Bool.andb_true_iff in Hok. tauto.
Qed.

(** X11. The validator succeeds with given data exactly when the data
    are what was submitted: [customerId] is the submitted string and is
    not empty, [amount] is the number the submitted value coerces to and
    lies above 0 and at most at 1,000,000, and [status] is the submitted
    word. *)
Theorem safeParse_data_iff formData data :
  FormSchema.safeParse formData = Success data <->
  get "customerId" formData = Some (EntryString (customerId data))
  /\ customerId data <> ""
  /\ amount data = Number (get "amount" formData)
  /\ JsNumber.ltb JsNumber.pos_zero (amount data) = true
  /\ JsNumber.leb (amount data) (JsNumber.of_Z 1000000) = true
  /\ get "status" formData = Some (EntryString (InvoiceStatus_to_string (status data))).
Proof.
  split.
  - intros Hv.
    pose proof (safeParse_amount _ _ Hv) as Ha.
    pose proof (safeParse_amount_bounds _ _ Hv) as [Hlo Hhi].
    unfold FormSchema.safeParse in Hv.
    unfold FormSchema.customerId_field, FormSchema.status_field in Hv.
    destruct (get "customerId" formData) as [[c|f]|];
      try (destruct (FormSchema.amount_field _); discriminate).
    destruct c as [|c0 c]; cbn [String.length Nat.ltb Nat.leb] in Hv;
      try (destruct (FormSchema.amount_field _); discriminate).
    destruct (FormSchema.amount_field _); try discriminate.
    destruct (get "status" formData) as [[s|f]|]; try discriminate.
    destruct (String.eqb s "pending") eqn:E1.
    + apply String.eqb_eq in E1. subst. injection Hv as <-.
      cbn [customerId amount status InvoiceStatus_to_string] in *.
      repeat split; auto; discriminate.
    + destruct (String.eqb s "paid") eqn:E2; try discriminate.
      apply String.eqb_eq in E2. subst. injection Hv as <-.
      cbn [customerId amount status InvoiceStatus_to_string] in *.
      repeat split; auto; discriminate.
  - destruct data as [c a s]. cbn [customerId amount status].
    intros (Hc & Hne & Ha & Hlo & Hhi & Hs). subst a.
    pose proof (proj2 (amount_field_success (get "amount" formData)) (conj Hlo Hhi)) as Hok.
    clear Hlo Hhi.
    unfold FormSchema.safeParse. rewrite Hc, Hs.
    destruct (FormSchema.amount_field (get "amount" formData)) as [n|l] eqn:Hf;
      [|discriminate].
    assert (Hn : n = Number (get "amount" formData)).
    { rewrite amount_field_cases in Hf.
      destruct (JsNumber.isNaN _); try discriminate.
      destruct (JsNumber.leb _ _); try discriminate.
      destruct (JsNumber.gtb _ _); try discriminate.
      injection Hf as <-. reflexivity. }
    subst n. destruct c; [contradiction|]. destruct s; reflexivity.
Qed.

Lemma safeParse_failure_shape formData :
  is_success (FormSchema.safeParse formData) = false ->
  FormSchema.safeParse formData =
    Failure {| customerId_errors :=
                 FormSchema.issues_of (FormSchema.customerId_field (get "customerId" formData));
               amount_errors :=
                 FormSchema.issues_of (FormSchema.amount_field (get "amount" formData));
               status_errors :=
                 FormSchema.issues_of (FormSchema.status_field (get "status" formData)) |}.
Proof.
  unfold FormSchema.safeParse.
  destruct (FormSchema.customerId_field _), (FormSchema.amount_field _),
    (FormSchema.status_field _); try reflexivity; discriminate.
Qed.

Lemma customerId_issues v :
  (FormSchema.issues_of (FormSchema.customerId_field v) = [] <->
   is_success (FormSchema.customerId_field v) = true)
  /\ (List.length (FormSchema.issues_of (FormSchema.customerId_field v)) <= 1)%nat.
Proof.
  unfold FormSchema.customerId_field.
  destruct v as [[s|f]|]; try destruct (String.length s <? 1)%nat; cbn;
    split; try lia; split; try reflexivity; discriminate.
Qed.

Lemma amount_issues v :
  (FormSchema.issues_of (FormSchema.amount_field v) = [] <->
   is_success (FormSchema.amount_field v) = true)
  /\ (List.length (FormSchema.issues_of (FormSchema.amount_field v)) <= 1)%nat.
Proof.
  rewrite amount_field_cases.
  destruct (JsNumber.isNaN _); [|destruct (JsNumber.leb _ _);
    [|destruct (JsNumber.gtb _ _)]]; cbn;
    split; try lia; split; try reflexivity; discriminate.
Qed.

Lemma status_issues v :
  (FormSchema.issues_of (FormSchema.status_field v) = [] <->
   is_success (FormSchema.status_field v) = true)
  /\ (List.length (FormSchema.issues_of (FormSchema.status_field v)) <= 1)%nat.
Proof.
  unfold FormSchema.status_field.
  destruct v as [[s|f]|];
    try (destruct (String.eqb s "pending"); [|destruct (String.eqb s "paid")]);
    cbn [FormSchema.issues_of is_success List.length];
    split; try lia; split; try reflexivity; discriminate.
Qed.

(** X12. When validation fails, the error object names exactly the
    failing fields: a field has no message exactly when its own rule is
    met, whatever the other fields are, and a failing field carries one
    message. *)
Theorem field_errors_name_failing_fields formData fieldErrors :
  FormSchema.safeParse formData = Failure fieldErrors ->
  (customerId_errors fieldErrors = [] <->
     exists s, get "customerId" formData = Some (EntryString s) /\ s <> "")
  /\ (amount_errors fieldErrors = [] <->
      JsNumber.ltb JsNumber.pos_zero (Number (get "amount" formData)) = true
      /\ JsNumber.leb (Number (get "amount" formData)) (JsNumber.of_Z 1000000) = true)
  /\ (status_errors fieldErrors = [] <->
      get "status" formData = Some (EntryString "pending")
      \/ get "status" formData = Some (EntryString "paid"))
  /\ (List.length (customerId_errors fieldErrors) <= 1)%nat
  /\ (List.length (amount_errors fieldErrors) <= 1)%nat
  /\ (List.length (status_errors fieldErrors) <= 1)%nat.
Proof.
  intros Hv.
  assert (Hf : is_success (FormSchema.safeParse formData) = false)
    by (rewrite Hv; reflexivity).
  rewrite (safeParse_failure_shape _ Hf) in Hv. injection Hv as <-.
  cbn [customerId_errors amount_errors status_errors].
  rewrite <- customerId_field_success, <- status_field_success.
  change (JsNumber.of_Z 1000000) with FormSchema.amount_max.
  rewrite <- amount_field_success.
  pose proof (customerId_issues (get "customerId" formData)) as [Hc1 Hc2].
  pose proof (amount_issues (get "amount" formData)) as [Ha1 Ha2].
  pose proof (status_issues (get "status" formData)) as [Hs1 Hs2].
  tauto.
Qed.

(** X13. A submission that lacks a key fails with that field's message:
    without [customerId] (or with a file there) the customer field asks
    to select a customer, and with the empty string it says the customer
    id is required; without [amount] the value counts as 0 and the amount
    field asks for an amount greater than $0; without [status] the status
    field asks to select a status. *)
Theorem missing_fields_messages formData :
  ((get "customerId" formData = None
    \/ exists f, get "customerId" formData = Some (EntryFile f)) ->
   exists fieldErrors,
     FormSchema.safeParse formData = Failure fieldErrors
     /\ customerId_errors fieldErrors = ["Please select a customer."])
  /\ (get "customerId" formData = Some (EntryString "") ->
      exists fieldErrors,
        FormSchema.safeParse formData = Failure fieldErrors
        /\ customerId_errors fieldErrors = ["Customer ID is required."])
  /\ (get "amount" formData = None ->
      exists fieldErrors,
        FormSchema.safeParse formData = Failure fieldErrors
        /\ amount_errors fieldErrors = ["Please enter an amount greater than $0."])
  /\ ((get "status" formData = None
       \/ exists f, get "status" formData = Some (EntryFile f)) ->
      exists fieldErrors,
        FormSchema.safeParse formData = Failure fieldErrors
        /\ status_errors fieldErrors = ["Please select an invoice status."]).
Proof.
  assert (Hshape : forall P : FieldErrors -> Prop,
             is_success (FormSchema.safeParse formData) = false ->
             P {| customerId_errors :=
                    FormSchema.issues_of (FormSchema.customerId_field (get "customerId" formData));
                  amount_errors :=
                    FormSchema.issues_of (FormSchema.amount_field (get "amount" formData));
                  status_errors :=
                    FormSchema.issues_of (FormSchema.status_field (get "status" formData)) |} ->
             exists fieldErrors,
               FormSchema.safeParse formData = Failure fieldErrors /\ P fieldErrors).
  { intros P Hf HP. eexists. split; [apply safeParse_failure_shape, Hf | exact HP]. }
  rewrite safeParse_success in Hshape.
  repeat split.
  - intros Hc. apply Hshape; cbn [customerId_errors].
    + destruct Hc as [-> | [f ->]]; reflexivity.
    + destruct Hc as [-> | [f ->]]; reflexivity.
  - intros Hc. apply Hshape; cbn [customerId_errors]; rewrite Hc; reflexivity.
  - intros Ha. apply Hshape; cbn [amount_errors]; rewrite Ha.
    + apply Bool.andb_false_iff. left. apply Bool.andb_false_iff. right. reflexivity.
    + reflexivity.
  - intros Hs. apply Hshape; cbn [status_errors].
    + apply Bool.andb_false_iff. right. destruct Hs as [-> | [f ->]]; reflexivity.
    + destruct Hs as [-> | [f ->]]; reflexivity.
Qed.

(** X14. The date sent with the INSERT is the part of the instant's ISO
    text before its first ['T']: it contains no ['T'], and the instant is
    that date alone or that date, a ['T'] and the rest. *)
Theorem split_T_0_spec (iso : string) :
  contains "T" (split_T_0 iso) = false
  /\ (iso = split_T_0 iso \/ exists rest, iso = split_T_0 iso ++ String "T" rest).
Proof.
  induction iso as [|c iso [IH1 IH2]]; cbn [split_T_0].
  - split; [reflexivity | left; reflexivity].
  - destruct (Ascii.eqb c "T") eqn:E.
    + apply Ascii.eqb_eq in E. subst c.
      split; [reflexivity | right; exists iso; reflexivity].
    + cbn [contains]. rewrite (Ascii.eqb_sym "T" c), E, IH1. split; [reflexivity|].
      destruct IH2 as [IH2 | [rest IH2]].
      * left. rewrite <- IH2. reflexivity.
      * right. exists rest. cbn [append]. rewrite <- IH2. reflexivity.
Qed.

(** X15. Every amount the validator accepts is a finite, strictly
    positive number: [NaN], the infinities, the zeros and the negative
    numbers never reach a statement. *)
Theorem accepted_amount_finite_positive formData data :
  FormSchema.safeParse formData = Success data ->
  exists m e, amount data = S754_finite false m e.
Proof.
  intros Hv. destruct (safeParse_amount_bounds _ _ Hv) as [Hlo Hhi].
  destruct (amount data) as [s|s| |s m e]; try destruct s;
    try discriminate Hlo; try discriminate Hhi.
  eauto.
Qed.

(** ** Whole-dollar amounts

    An integer below [2^53] is a binary64 number whose mantissa is the
    integer shifted up to 53 bits; multiplying two such numbers shifts
    the exact product back down over zero bits only, so nothing is
    rounded away as long as the product is itself below [2^53]. *)

Lemma iter_pos_nat {A} (f : A -> A) (p : positive) (x : A) :
  iter_pos f p x = Nat.iter (Pos.to_nat p) f x.
Proof.
  revert x. induction p as [p IH|p IH|]; intros x; cbn [iter_pos].
  - rewrite !IH, Pos2Nat.inj_xI.
    replace (S (2 * Pos.to_nat p)) with (Pos.to_nat p + (Pos.to_nat p + 1))%nat by lia.
    rewrite !Nat.iter_add. reflexivity.
  - rewrite !IH, Pos2Nat.inj_xO.
    replace (2 * Pos.to_nat p)%nat with (Pos.to_nat p + Pos.to_nat p)%nat by lia.
    rewrite Nat.iter_add. reflexivity.
  - reflexivity.
Qed.

Lemma shr_1_shl (k : nat) (m : positive) :
  Nat.iter k shr_1 {| shr_m := Zpos (shl k m); shr_r := false; shr_s := false |}
  = {| shr_m := Zpos m; shr_r := false; shr_s := false |}.
Proof.
  induction k as [|k IH]; [reflexivity|].
  rewrite Nat.iter_succ_r. exact IH.
Qed.

Lemma digits_shl (k : nat) (m : positive) :
  Zpos (digits2_pos (shl k m)) = (Zpos (digits2_pos m) + Z.of_nat k)%Z.
Proof.
  induction k as [|k IH]; [cbn; lia|].
  change (shl (S k) m) with (xO (shl k m)). cbn [digits2_pos].
  rewrite Pos2Z.inj_succ, IH. lia.
Qed.

Lemma fexp_eq (x : Z) : fexp JsNumber.prec JsNumber.emax x = Z.max (x - 53) (-1074).
Proof. reflexivity. Qed.

Lemma round_exact (m : positive) (e : Z) (k : nat) :
  Zpos (digits2_pos m) = 53%Z -> (-1074 <= e <= 971)%Z ->
  binary_round_aux JsNumber.prec JsNumber.emax false (Zpos (shl k m)) (e - Z.of_nat k) loc_Exact
  = S754_finite false m e.
Proof.
  intros Hd He.
  unfold binary_round_aux, shr_fexp.
  cbn [Zdigits2 shr_record_of_loc]. rewrite digits_shl, Hd.
  replace (fexp JsNumber.prec JsNumber.emax (53 + Z.of_nat k + (e - Z.of_nat k)) - (e - Z.of_nat k))%Z
    with (Z.of_nat k) by (rewrite fexp_eq; lia).
  assert (Hshr : shr {| shr_m := Zpos (shl k m); shr_r := false; shr_s := false |}
                   (e - Z.of_nat k) (Z.of_nat k)
                 = ({| shr_m := Zpos m; shr_r := false; shr_s := false |}, e)).
  { destruct k as [|k].
    - cbn. f_equal. lia.
    - unfold shr. cbn [Z.of_nat].
      rewrite iter_pos_nat, SuccNat2Pos.id_succ, shr_1_shl. f_equal. lia. }
  rewrite Hshr. cbn [shr_m loc_of_shr_record round_nearest_even Zdigits2].
  rewrite Hd.
  replace (fexp JsNumber.prec JsNumber.emax (53 + e) - e)%Z with 0%Z
    by (rewrite fexp_eq; lia).
  cbn [shr shr_m].
  replace (e <=? JsNumber.emax - JsNumber.prec)%Z with true
    by (symmetry; apply Z.leb_le; unfold JsNumber.emax, JsNumber.prec; lia).
  reflexivity.
Qed.

Lemma Pos_iter_shl (p q : positive) : Pos.iter xO p q = shl (Pos.to_nat q) p.
Proof. unfold shl. rewrite Pos2Nat.inj_iter. reflexivity. Qed.

Lemma of_Z_normal (p : positive) (d : nat) :
  (Zpos (digits2_pos p) + Z.of_nat d = 53)%Z ->
  JsNumber.of_Z (Zpos p) = S754_finite false (shl d p) (- Z.of_nat d).
Proof.
  intros Hd. unfold JsNumber.of_Z, binary_normalize, binary_round.
  assert (Hf : fexp JsNumber.prec JsNumber.emax (Zpos (digits2_pos p) + 0) = (- Z.of_nat d)%Z)
    by (rewrite fexp_eq; lia).
  cbv zeta. rewrite Hf.
  assert (Hal : shl_align p 0 (- Z.of_nat d) = (shl d p, (- Z.of_nat d)%Z)).
  { unfold shl_align. destruct d as [|d]; [reflexivity|].
    cbn [Z.of_nat Z.opp Z.sub Z.add Z.pos_sub].
    rewrite Pos_iter_shl, SuccNat2Pos.id_succ. reflexivity. }
  rewrite Hal.
  pose proof (round_exact (shl d p) (- Z.of_nat d) 0) as Hr.
  change (shl 0 (shl d p)) with (shl d p) in Hr.
  change (Z.of_nat 0) with 0%Z in Hr. rewrite Z.sub_0_r in Hr.
  apply Hr; [|lia].
  rewrite digits_shl. lia.
Qed.

Lemma shl_mul (a b : nat) (p c : positive) :
  (shl a p * shl b c)%positive = shl (a + b) (p * c).
Proof.
  induction a as [|a IH].
  - cbn [shl Nat.iter nat_rect Nat.add]. induction b as [|b IHb]; [reflexivity|].
    change (shl (S b) c) with (xO (shl b c)).
    change (shl (S b) (p * c)) with (xO (shl b (p * c))).
    rewrite Pos.mul_xO_r, IHb. reflexivity.
  - change (shl (S a) p) with (xO (shl a p)).
    change (shl (S a + b) (p * c)) with (xO (shl (a + b) (p * c))).
    cbn [Pos.mul]. rewrite IH. reflexivity.
Qed.

Lemma digits_size (p : positive) : digits2_pos p = Pos.size p.
Proof. induction p; cbn; congruence. Qed.

Lemma digits_bounds (p : positive) :
  (2 ^ Zpos (digits2_pos p) <= 2 * Zpos p < 2 * 2 ^ Zpos (digits2_pos p))%Z.
Proof.
  rewrite digits_size. split.
  - pose proof (Pos.size_le p) as Hle.
    apply Pos2Z.pos_le_pos in Hle. rewrite Pos2Z.inj_pow in Hle. exact Hle.
  - pose proof (Pos.size_gt p) as Hgt.
    apply Pos2Z.pos_lt_pos in Hgt. rewrite Pos2Z.inj_pow in Hgt. lia.
Qed.

Lemma digits_le_of_lt (p : positive) (k : Z) :
  (0 <= k)%Z -> (Zpos p < 2 ^ k)%Z -> (Zpos (digits2_pos p) <= k)%Z.
Proof.
  intros Hk Hp. pose proof (digits_bounds p) as [Hlo _].
  destruct (Z.le_gt_cases (Zpos (digits2_pos p)) k) as [|Hgt]; [assumption|].
  exfalso.
  assert (2 ^ (k + 1) <= 2 ^ Zpos (digits2_pos p))%Z
    by (apply Z.pow_le_mono_r; lia).
  rewrite Z.pow_add_r in H by lia. lia.
Qed.

Lemma digits_mono (p q : positive) :
  (p <= q)%positive -> (Zpos (digits2_pos p) <= Zpos (digits2_pos q))%Z.
Proof.
  intros Hpq. apply digits_le_of_lt; [lia|].
  pose proof (digits_bounds q) as [_ Hhi]. lia.
Qed.

Lemma mul_of_Z_exact (p c : positive) :
  (Zpos (digits2_pos c) <= 53)%Z ->
  (Zpos (digits2_pos (p * c)) <= 53)%Z ->
  JsNumber.mul (JsNumber.of_Z (Zpos p)) (JsNumber.of_Z (Zpos c)) = JsNumber.of_Z (Zpos (p * c)).
Proof.
  intros Hc Hpc.
  assert (Hp : (Zpos (digits2_pos p) <= Zpos (digits2_pos (p * c)))%Z).
  { apply digits_mono. rewrite <- (Pos.mul_1_r p) at 1.
    apply Pos.mul_le_mono_l. apply Pos.le_1_l. }
  pose (a := Z.to_nat (53 - Zpos (digits2_pos p))).
  pose (b := Z.to_nat (53 - Zpos (digits2_pos c))).
  pose (d := Z.to_nat (53 - Zpos (digits2_pos (p * c)))).
  rewrite (of_Z_normal p a), (of_Z_normal c b), (of_Z_normal (p * c) d) by lia.
  unfold JsNumber.mul, SFmul. cbn [xorb].
  rewrite shl_mul.
  replace (a + b)%nat with ((a + b - d) + d)%nat by lia.
  unfold shl at 1. rewrite Nat.iter_add. fold (shl d (p * c)).
  fold (shl (a + b - d) (shl d (p * c))).
  replace (- Z.of_nat a + - Z.of_nat b)%Z
    with (- Z.of_nat d - Z.of_nat (a + b - d))%Z by lia.
  apply round_exact; [|lia].
  rewrite digits_shl. lia.
Qed.

Lemma shl_value (k : nat) (m : positive) : Zpos (shl k m) = (Zpos m * 2 ^ Z.of_nat k)%Z.
Proof.
  induction k as [|k IH]; [cbn; lia|].
  change (shl (S k) m) with (xO (shl k m)).
  rewrite Pos2Z.inj_xO, IH, Nat2Z.inj_succ, Z.pow_succ_r by lia. lia.
Qed.

Lemma is_integer_of_Z (p : positive) :
  (Zpos (digits2_pos p) <= 53)%Z -> JsNumber.is_integer (JsNumber.of_Z (Zpos p)) = true.
Proof.
  intros Hp.
  rewrite (of_Z_normal p (Z.to_nat (53 - Zpos (digits2_pos p)))) by lia.
  set (d := Z.to_nat (53 - Zpos (digits2_pos p))).
  unfold JsNumber.is_integer. destruct (- Z.of_nat d)%Z as [| q | q] eqn:Hq; try reflexivity.
  apply Z.eqb_eq. rewrite Z.land_ones by lia.
  rewrite shl_value. replace (Zpos q) with (Z.of_nat d) by lia.
  apply Z.mod_mul. lia.
Qed.

Lemma digit_value_decimal c :
  is_decimal_digit c = true ->
  StringToNumber.digit_value 10 c = Some (N_of_ascii c - 48)%N.
Proof.
  unfold is_decimal_digit, StringToNumber.digit_value. intros Hc. rewrite Hc.
  apply Bool.andb_true_iff in Hc. destruct Hc as [H1 H2].
  apply N.leb_le in H1, H2.
  replace (N_of_ascii c - 48 <? 10)%N with true; [reflexivity|].
  symmetry. apply N.ltb_lt. lia.
Qed.

Lemma digit_not_white_space c :
  is_decimal_digit c = true -> StringToNumber.is_white_space c = false.
Proof.
  unfold is_decimal_digit, StringToNumber.is_white_space. intros Hc.
  apply Bool.andb_true_iff in Hc. destruct Hc as [H1 H2].
  apply N.leb_le in H1, H2.
  replace (N_of_ascii c <=? 13)%N with false by (symmetry; apply N.leb_gt; lia).
  replace (N_of_ascii c =? 32)%N with false by (symmetry; apply N.eqb_neq; lia).
  replace (N_of_ascii c =? 160)%N with false by (symmetry; apply N.eqb_neq; lia).
  rewrite Bool.andb_false_r. reflexivity.
Qed.

Lemma take_digits_all l : forall acc cnt v,
  digits_value acc l = Some v ->
  StringToNumber.take_digits 10 acc cnt l = (v, (cnt + List.length l)%nat, []).
Proof.
  induction l as [|c r IH]; intros acc cnt v; cbn [digits_value StringToNumber.take_digits].
  - intros [= <-]. rewrite Nat.add_0_r. reflexivity.
  - destruct (is_decimal_digit c) eqn:Hc; [|discriminate].
    intros Hv. rewrite (digit_value_decimal c Hc), (IH _ (S cnt) _ Hv).
    cbn [List.length]. f_equal. f_equal. lia.
Qed.

Lemma digits_value_all l : forall acc v,
  digits_value acc l = Some v -> forallb is_decimal_digit l = true.
Proof.
  induction l as [|c r IH]; intros acc v; cbn [digits_value forallb]; [reflexivity|].
  destruct (is_decimal_digit c); [|discriminate]. intros Hv. exact (IH _ _ Hv).
Qed.

Lemma drop_white_space_digit c r :
  is_decimal_digit c = true ->
  StringToNumber.drop_white_space (c :: r) = c :: r.
Proof.
  intros Hc. cbn [StringToNumber.drop_white_space].
  rewrite (digit_not_white_space c Hc). reflexivity.
Qed.

Lemma trim_digits l :
  forallb is_decimal_digit l = true -> StringToNumber.trim l = l.
Proof.
  intros Hl. unfold StringToNumber.trim.
  assert (Hd : forall l', forallb is_decimal_digit l' = true ->
                          StringToNumber.drop_white_space l' = l').
  { intros [|c r] Hl'; [reflexivity|].
    cbn [forallb] in Hl'. apply Bool.andb_true_iff in Hl'.
    apply drop_white_space_digit. tauto. }
  rewrite (Hd l Hl).
  rewrite Hd; [apply rev_involutive|].
  apply forallb_forall. intros x Hx. apply In_rev in Hx.
  exact (proj1 (forallb_forall _ _) Hl x Hx).
Qed.

Lemma digit_not_letter c (x : ascii) :
  is_decimal_digit c = true -> is_decimal_digit x = false -> Ascii.eqb c x = false.
Proof.
  intros Hc Hx. destruct (Ascii.eqb c x) eqn:E; [|reflexivity].
  apply Ascii.eqb_eq in E. subst. congruence.
Qed.

Lemma parse_unsigned_decimal_digits c r v :
  digits_value 0 (c :: r) = Some v ->
  StringToNumber.parse_unsigned_decimal false (c :: r) = StringToNumber.of_decimal false v 0.
Proof.
  intros Hv. unfold StringToNumber.parse_unsigned_decimal.
  assert (Hc : is_decimal_digit c = true).
  { pose proof (digits_value_all _ _ _ Hv) as Hall. cbn [forallb] in Hall.
    apply Bool.andb_true_iff in Hall. tauto. }
  cbn [string_of_list_ascii String.eqb].
  rewrite (digit_not_letter c "I" Hc eq_refl).
  rewrite (take_digits_all _ 0 0 _ Hv).
  cbn [Nat.add List.length StringToNumber.parse_exponent]. reflexivity.
Qed.

Lemma StringToNumber_digits s v :
  whole_number s = Some v ->
  StringToNumber.StringToNumber s = StringToNumber.of_decimal false v 0.
Proof.
  unfold whole_number, StringToNumber.StringToNumber.
  destruct (list_ascii_of_string s) as [|c r] eqn:Hl; [discriminate|].
  intros Hv.
  pose proof (digits_value_all _ _ _ Hv) as Hall.
  rewrite (trim_digits _ Hall).
  rewrite <- (parse_unsigned_decimal_digits c r v Hv).
  cbn [forallb] in Hall. apply Bool.andb_true_iff in Hall. destruct Hall as [Hc Hr].
  clear Hv Hl.
  destruct c as [b0 b1 b2 b3 b4 b5 b6 b7].
  destruct b0, b1, b2, b3, b4, b5, b6, b7; try discriminate Hc; try reflexivity.
  destruct r as [|c2 r2]; [reflexivity|].
  cbn [forallb] in Hr. apply Bool.andb_true_iff in Hr. destruct Hr as [Hc2 _].
  cbv iota beta.
  rewrite (digit_not_letter c2 "x" Hc2 eq_refl), (digit_not_letter c2 "X" Hc2 eq_refl),
    (digit_not_letter c2 "o" Hc2 eq_refl), (digit_not_letter c2 "O" Hc2 eq_refl),
    (digit_not_letter c2 "b" Hc2 eq_refl), (digit_not_letter c2 "B" Hc2 eq_refl).
  reflexivity.
Qed.

Lemma of_ratio_one (m : positive) :
  (Zpos (digits2_pos m) <= 53)%Z ->
  JsNumber.of_ratio false m 1 = JsNumber.of_Z (Zpos m).
Proof.
  intros Hm.
  pose (d := Z.to_nat (53 - Zpos (digits2_pos m))).
  rewrite (of_Z_normal m d) by lia.
  unfold JsNumber.of_ratio, SFdiv_core_binary.
  cbn [Zdigits2 digits2_pos].
  assert (He : Z.min (fexp JsNumber.prec JsNumber.emax (Zpos (digits2_pos m) + 0 - (1 + 0)))
                 (0 - 0) = (- Z.of_nat d - 1)%Z)
    by (rewrite fexp_eq; lia).
  rewrite He. clear He.
  assert (Hs : (0 - 0 - (- Z.of_nat d - 1) = Zpos (Pos.of_succ_nat d))%Z) by lia.
  rewrite Hs. clear Hs.
  assert (Hsh : Z.shiftl (Zpos m) (Zpos (Pos.of_succ_nat d)) = Zpos (shl 1 (shl d m))).
  { rewrite Z.shiftl_mul_pow2 by lia. rewrite !shl_value.
    replace (Zpos (Pos.of_succ_nat d)) with (Z.of_nat d + 1)%Z by lia.
    rewrite Z.pow_add_r by lia. change (Z.of_nat 1) with 1%Z. lia. }
  rewrite Hsh. clear Hsh.
  pose proof (Z.div_1_r (Zpos (shl 1 (shl d m)))) as Hq.
  pose proof (Z.mod_1_r (Zpos (shl 1 (shl d m)))) as Hr.
  unfold Z.div, Z.modulo in Hq, Hr.
  destruct (Z.div_eucl (Zpos (shl 1 (shl d m))) 1) as [q r].
  subst q r. cbv beta iota.
  change (new_location 1 0) with loc_Exact.
  replace (- Z.of_nat d - 1)%Z with (- Z.of_nat d - Z.of_nat 1)%Z by lia.
  apply round_exact; [|lia].
  rewrite digits_shl. lia.
Qed.

(** X16. An amount typed as a whole number of dollars from 1 to
    1,000,000, in decimal digits only, coerces to that integer, and the
    amount in cents computed from it is exactly 100 times it, an
    integer: nothing is lost in the multiplication. *)
Theorem whole_dollars_exact_cents (s : string) (n : N) :
  whole_number s = Some n ->
  (1 <= n <= 1000000)%N ->
  Number (Some (EntryString s)) = JsNumber.of_Z (Z.of_N n)
  /\ JsNumber.mul (Number (Some (EntryString s))) (JsNumber.of_Z 100)
     = JsNumber.of_Z (100 * Z.of_N n)
  /\ JsNumber.is_integer (JsNumber.of_Z (100 * Z.of_N n)) = true.
Proof.
  intros Hs Hn.
  destruct n as [|p]; [lia|].
  assert (Hp : (Zpos (digits2_pos p) <= 20)%Z).
  { apply digits_le_of_lt; [lia|]. apply Z.lt_trans with 1000001%Z; [lia | reflexivity]. }
  assert (Hc : (Zpos (digits2_pos (p * 100)) <= 27)%Z).
  { apply digits_le_of_lt; [lia|]. apply Z.lt_trans with 100000001%Z; [lia | reflexivity]. }
  assert (Hnum : Number (Some (EntryString s)) = JsNumber.of_Z (Zpos p)).
  { cbn [Number]. rewrite (StringToNumber_digits s _ Hs).
    cbn [StringToNumber.of_decimal]. apply of_ratio_one. lia. }
  cbn [Z.of_N]. rewrite Hnum.
  replace (100 * Zpos p)%Z with (Zpos (p * 100)) by lia.
  split; [reflexivity|]. split.
  - apply mul_of_Z_exact; [cbn; lia | lia].
  - apply is_integer_of_Z. lia.
Qed.

(** ** Further concrete runs *)

(** Two decimals are not enough for exact cents: [1.15 * 100] is
    [114.99999999999999]. *)
Example cents_of_1_15 :
  JsNumber.mul (StringToNumber.StringToNumber "1.15") (JsNumber.of_Z 100)
    = S754_finite false 8092405580431359 (-46)
  /\ JsNumber.is_integer (S754_finite false 8092405580431359 (-46)) = false
  /\ JsNumber.ltb (S754_finite false 8092405580431359 (-46)) (JsNumber.of_Z 115) = true.
Proof. repeat split. Qed.

(** X6 on the reference platform, with the database reachable. *)
Lemma revisions_agree_on_accepted_witness :
  let formData := invoice_form Reference.a_uuid "15.50" "pending" in
  let w := Reference.start Reference.online Reference.empty_table in
  calls (snd (@createInvoice Reference.online initial_state formData w)) =
    calls (snd (@Revision1.createInvoice Reference.online formData w))
  /\ database (snd (@createInvoice Reference.online initial_state formData w)) =
       database (snd (@Revision1.createInvoice Reference.online formData w))
  /\ fst (@createInvoice Reference.online initial_state formData w) =
       Thrown (NextRedirect "/dashboard/invoices")
  /\ fst (@Revision1.createInvoice Reference.online formData w) =
       Thrown (NextRedirect "/dashboard/invoices").
Proof.
  intros formData w.
  exact (@revisions_agree_on_accepted Reference.online initial_state formData w
           {| customerId := Reference.a_uuid;
              amount := JsNumber.of_ratio false 31 2;
              status := pending |} eq_refl).
Defined.

(** X10 on a submission that also carries an [id], a [date] and a second
    [amount]. *)
Lemma actions_read_three_fields_witness :
  let formData := invoice_form Reference.a_uuid "15.50" "pending" in
  let formData' :=
    (("id", EntryString "1") :: ("date", EntryString "1999-01-01") :: formData
     ++ [("amount", EntryString "0")])%list in
  let w := Reference.start Reference.online Reference.empty_table in
  @createInvoice Reference.online initial_state formData w =
    @createInvoice Reference.online
      {| errors := None; message := Some "Missing Fields. Failed to Create Invoice." |}
      formData' w
  /\ @updateInvoice Reference.online Reference.a_uuid initial_state formData w =
       @updateInvoice Reference.online Reference.a_uuid
         {| errors := None; message := Some "Missing Fields. Failed to Create Invoice." |}
         formData' w
  /\ @Revision1.createInvoice Reference.online formData w =
       @Revision1.createInvoice Reference.online formData' w.
Proof.
  intros formData formData' w.
  exact (@actions_read_three_fields Reference.online Reference.a_uuid initial_state
           {| errors := None; message := Some "Missing Fields. Failed to Create Invoice." |}
           formData formData' w eq_refl eq_refl eq_refl).
Defined.

(** X12 on a submission whose amount alone is wrong. *)
Lemma field_errors_name_failing_fields_witness :
  let formData := invoice_form Reference.a_uuid "-3" "paid" in
  let fieldErrors :=
    {| customerId_errors := [];
       amount_errors := ["Please enter an amount greater than $0."];
       status_errors := [] |} in
  FormSchema.safeParse formData = Failure fieldErrors
  /\ (customerId_errors fieldErrors = [] <->
        exists s, get "customerId" formData = Some (EntryString s) /\ s <> "")
  /\ (amount_errors fieldErrors = [] <->
      JsNumber.ltb JsNumber.pos_zero (Number (get "amount" formData)) = true
      /\ JsNumber.leb (Number (get "amount" formData)) (JsNumber.of_Z 1000000) = true).
Proof.
  intros formData fieldErrors. split; [reflexivity|].
  destruct (field_errors_name_failing_fields formData fieldErrors eq_refl)
    as (Hc & Ha & _).
  split; assumption.
Defined.

(** X13 on the empty submission. *)
Lemma missing_fields_messages_witness :
  (exists fieldErrors,
     FormSchema.safeParse [] = Failure fieldErrors
     /\ customerId_errors fieldErrors = ["Please select a customer."])
  /\ (exists fieldErrors,
        FormSchema.safeParse [] = Failure fieldErrors
        /\ amount_errors fieldErrors = ["Please enter an amount greater than $0."])
  /\ (exists fieldErrors,
        FormSchema.safeParse [] = Failure fieldErrors
        /\ status_errors fieldErrors = ["Please select an invoice status."]).
Proof.
  destruct (missing_fields_messages []) as (Hc & _ & Ha & Hs).
  split; [exact (Hc (or_introl eq_refl))|].
  split; [exact (Ha eq_refl) | exact (Hs (or_introl eq_refl))].
Defined.

(** X15 on the amount 15.50. *)
Lemma accepted_amount_finite_positive_witness :
  exists m e, JsNumber.of_ratio false 31 2 = S754_finite false m e.
Proof.
  exact (accepted_amount_finite_positive
           (invoice_form Reference.a_uuid "15.50" "pending")
           {| customerId := Reference.a_uuid;
              amount := JsNumber.of_ratio false 31 2;
              status := pending |} eq_refl).
Defined.

(** X16 on 250 dollars: 25000 cents. *)
Lemma whole_dollars_exact_cents_witness :
  whole_number "250" = Some 250%N
  /\ Number (Some (EntryString "250")) = JsNumber.of_Z 250
  /\ JsNumber.mul (Number (Some (EntryString "250"))) (JsNumber.of_Z 100)
     = JsNumber.of_Z 25000
  /\ JsNumber.is_integer (JsNumber.of_Z 25000) = true.
Proof.
  split; [reflexivity|].
  refine (whole_dollars_exact_cents "250" 250%N eq_refl _).
  split; discriminate.
Defined.
